(** * BGTrackPackages: the shipment-mail tracker, embedded and verified

    A shallow embedding of [gmailtrackingmodel.py] (the data classes and the
    two classifiers) and of [gmailtracking.py] (ledger files, mailbox paging,
    the text extractors and the run loop [main]).

    Conventions of the embedding:
    - a Python [str] is a [string]; the message bodies handled here are
      quoted-printable text, so a character is one [ascii] code;
    - a Python value that may be [None] is an [option];
    - a call that may raise returns a [result]; [main]'s [except Exception]
      is a [match] on it;
    - the libraries the program calls but does not contain (the Gmail client,
      the MIME parser, requests, BeautifulSoup, URLExtract, jsonpickle) are
      the fields of the record [World] and the constructors of [line]. *)

From Stdlib Require Import String Ascii List Bool Arith ZArith Lia DecimalString.
Import ListNotations.

Set Implicit Arguments.

Local Open Scope string_scope.
Local Open Scope list_scope.

(** ** Exceptions *)

Inductive exn : Type :=
| AttributeError
| TypeError
| IndexError
| KeyError
| ValueError
| StopIteration
| HttpError.

Inductive result (A : Type) : Type :=
| Ok (a : A)
| Raise (e : exn).

Arguments Ok {A} a.
Arguments Raise {A} e.

Definition bind {A B : Type} (r : result A) (f : A -> result B) : result B :=
  match r with
  | Ok a => f a
  | Raise e => Raise e
  end.

Notation "x <- r ;; k" := (bind r (fun x => k))
  (at level 61, r at next level, right associativity).

(** ** Python strings *)

Module Str.

Definition LF : ascii := "010"%char.
Definition CR : ascii := "013"%char.

Definition between (lo hi : nat) (c : ascii) : bool :=
  let n := nat_of_ascii c in ((lo <=? n) && (n <=? hi))%nat.

(** [[0-9]], [[A-Z]] and [[a-z]]. *)
Definition digit : ascii -> bool := between 48 57.
Definition upper_letter : ascii -> bool := between 65 90.
Definition lower_letter : ascii -> bool := between 97 122.

(** [\w] on the characters of a quoted-printable body. *)
Definition word (c : ascii) : bool :=
  digit c || upper_letter c || lower_letter c || Ascii.eqb c "_".

Definition upper_char (c : ascii) : ascii :=
  if lower_letter c then ascii_of_nat (nat_of_ascii c - 32) else c.

Definition lower_char (c : ascii) : ascii :=
  if upper_letter c then ascii_of_nat (nat_of_ascii c + 32) else c.

Fixpoint map (f : ascii -> ascii) (s : string) : string :=
  match s with
  | EmptyString => EmptyString
  | String c s' => String (f c) (map f s')
  end.

(** [s.upper()] and [s.lower()]. *)
Definition upper : string -> string := map upper_char.
Definition lower : string -> string := map lower_char.

Fixpoint filter (p : ascii -> bool) (s : string) : string :=
  match s with
  | EmptyString => EmptyString
  | String c s' => if p c then String c (filter p s') else filter p s'
  end.

Fixpoint all (p : ascii -> bool) (s : string) : bool :=
  match s with
  | EmptyString => true
  | String c s' => p c && all p s'
  end.

(** [s[n:]]. *)
Fixpoint drop (n : nat) (s : string) : string :=
  match n, s with
  | O, _ => s
  | S _, EmptyString => EmptyString
  | S n', String _ s' => drop n' s'
  end.

(** [s[:n]]. *)
Fixpoint take (n : nat) (s : string) : string :=
  match n, s with
  | O, _ => EmptyString
  | S _, EmptyString => EmptyString
  | S n', String c s' => String c (take n' s')
  end.

(** [s.startswith(p)]: when [p] is a prefix of [s], what follows it. *)
Fixpoint strip_prefix (p s : string) : option string :=
  match p with
  | EmptyString => Some s
  | String a p' =>
      match s with
      | EmptyString => None
      | String b s' => if Ascii.eqb a b then strip_prefix p' s' else None
      end
  end.

Definition startswith (p s : string) : bool :=
  match strip_prefix p s with Some _ => true | None => false end.

(** [needle in s]. *)
Fixpoint contains (needle s : string) : bool :=
  startswith needle s ||
  match s with
  | EmptyString => false
  | String _ s' => contains needle s'
  end.

(** The line boundaries of [str.splitlines] below code 256. *)
Definition linebreak (c : ascii) : bool :=
  let n := nat_of_ascii c in
  (((10 <=? n) && (n <=? 13)) || ((28 <=? n) && (n <=? 30)) || (n =? 133))%nat.

(** [s.splitlines()], the line under construction carried in [cur];
    a CR LF pair is one boundary. *)
Fixpoint splitlines_from (cur s : string) : list string :=
  match s with
  | EmptyString => if String.eqb cur "" then [] else [cur]
  | String c s' =>
      if linebreak c then
        cur :: (if Ascii.eqb c CR then
                  match s' with
                  | String d s'' =>
                      if Ascii.eqb d LF then splitlines_from "" s''
                      else splitlines_from "" s'
                  | EmptyString => splitlines_from "" s'
                  end
                else splitlines_from "" s')
      else splitlines_from (cur ++ String c "") s'
  end.

Definition splitlines (s : string) : list string := splitlines_from "" s.

(** ['\n'.join(l)]. *)
Definition join_lines (l : list string) : string :=
  String.concat (String LF "") l.

End Str.

(** ** The fragment of Python's [re] the program uses

    Backtracking matching in continuation-passing style: a pattern is tried
    against a suffix of the subject and hands what it did not consume to the
    continuation; when the continuation fails, the pattern tries its next
    alternative, in the order Python's engine does (a greedy star gives back
    one character at a time, a lazy star takes one more, an alternation
    goes left to right). Starred and counted sub-patterns are character
    classes, as in every pattern of the source. *)

Module Re.

Definition charset : Type := ascii -> bool.

Definition any_but (l : list ascii) : charset :=
  fun c => negb (existsb (Ascii.eqb c) l).

(** [.] without DOTALL. *)
Definition dot : charset := any_but [Str.LF].

Inductive regex : Type :=
| Lit (s : string)
| Rep (n : nat) (p : charset)
| Star (p : charset)
| StarLazy (p : charset)
| Cat (r1 r2 : regex)
| Alt (r1 r2 : regex)
| Group (n : nat) (r : regex).

Definition groups : Type := list (nat * string).

Fixpoint rep (n : nat) (p : charset) (s : string) : option string :=
  match n with
  | O => Some s
  | S n' =>
      match s with
      | String c s' => if p c then rep n' p s' else None
      | EmptyString => None
      end
  end.

Section Matcher.

Variable A : Type.

Fixpoint star_greedy (p : charset) (s : string)
         (k : string -> option A) : option A :=
  match s with
  | String c s' =>
      if p c then
        match star_greedy p s' k with
        | Some a => Some a
        | None => k s
        end
      else k s
  | EmptyString => k s
  end.

Fixpoint star_lazy (p : charset) (s : string)
         (k : string -> option A) : option A :=
  match k s with
  | Some a => Some a
  | None =>
      match s with
      | String c s' => if p c then star_lazy p s' k else None
      | EmptyString => None
      end
  end.

(** The text a sub-pattern consumed: [s] without its suffix [rest]. *)
Definition consumed (s rest : string) : string :=
  Str.take (String.length s - String.length rest) s.

Fixpoint exec (r : regex) (s : string) (g : groups)
         (k : string -> groups -> option A) : option A :=
  match r with
  | Lit l =>
      match Str.strip_prefix l s with
      | Some s' => k s' g
      | None => None
      end
  | Rep n p =>
      match rep n p s with
      | Some s' => k s' g
      | None => None
      end
  | Star p => star_greedy p s (fun s' => k s' g)
  | StarLazy p => star_lazy p s (fun s' => k s' g)
  | Cat r1 r2 => exec r1 s g (fun s' g' => exec r2 s' g' k)
  | Alt r1 r2 =>
      match exec r1 s g k with
      | Some a => Some a
      | None => exec r2 s g k
      end
  | Group n r' =>
      exec r' s g (fun s' g' => k s' ((n, consumed s s') :: g'))
  end.

End Matcher.

(** [re.match]: at the start of the subject. *)
Definition rmatch (r : regex) (s : string) : option groups :=
  exec r s [] (fun _ g => Some g).

(** [re.fullmatch]: the whole subject. *)
Definition fullmatch (r : regex) (s : string) : option groups :=
  exec r s [] (fun rest g => if String.eqb rest "" then Some g else None).

(** [re.search]: the leftmost start position that matches. *)
Fixpoint search (r : regex) (s : string) : option groups :=
  match rmatch r s with
  | Some g => Some g
  | None =>
      match s with
      | String _ s' => search r s'
      | EmptyString => None
      end
  end.

(** [m.group(n)] of a match object. *)
Fixpoint group (n : nat) (g : groups) : option string :=
  match g with
  | [] => None
  | (i, v) :: g' => if Nat.eqb i n then Some v else group n g'
  end.

(** [m.group(n)] where [m] is what [re.search] returned: [None] has no
    attribute [group]. *)
Definition group_of (m : option groups) (n : nat) : result string :=
  match m with
  | None => Raise AttributeError
  | Some g =>
      match group n g with
      | Some v => Ok v
      | None => Raise IndexError
      end
  end.

Definition is_match (m : option groups) : bool :=
  match m with Some _ => true | None => false end.

End Re.

(** ** gmailtrackingmodel.py: the data classes *)

Definition opt_str_eqb (a b : option string) : bool :=
  match a, b with
  | Some x, Some y => String.eqb x y
  | None, None => true
  | _, _ => false
  end.

(** [@dataclass class Address]: six fields, none declared with
    [field(compare=False)]; [recipient] defaults to [None]. *)
Record Address : Type := mkAddress {
  line1 : string;
  line2 : string;
  city : string;
  state : string;
  zipcode : string;
  recipient : option string
}.

(** The [__eq__] the decorator generates: the tuples of all compared fields
    are equal. *)
Definition Address_eq (a b : Address) : bool :=
  String.eqb (line1 a) (line1 b) &&
  String.eqb (line2 a) (line2 b) &&
  String.eqb (city a) (city b) &&
  String.eqb (state a) (state b) &&
  String.eqb (zipcode a) (zipcode b) &&
  opt_str_eqb (recipient a) (recipient b).

(** [@dataclass class Email]: only [Id] is compared. The other fields are
    what [message[...]] returned, [None] for an absent header. *)
Record Email : Type := mkEmail {
  Id : string;
  to : option string;
  sender : option string;
  date : option string;
  subject : option string
}.

Definition Email_eq (a b : Email) : bool := String.eqb (Id a) (Id b).

Module BuyClub.

Inductive t : Type := MYS | POINTSMAKER | USA | BFMR.

(** [BuyClub.from_address]; [address.line1] of [None] raises. *)
Definition from_address (address : option Address) : result (option t) :=
  match address with
  | None => Raise AttributeError
  | Some a =>
      let line1 := Str.upper (line1 a) in
      Ok (if Str.contains "144 QUIGLEY" line1 then Some MYS
          else if Str.contains "118 PARK" line1 then Some POINTSMAKER
          else if Str.contains "200 BEDFORD FALLS" line1 then Some POINTSMAKER
          else if Str.contains "382 W RTE 59" line1 then Some USA
          else if Str.contains "382 RTE 59" line1 then Some USA
          else if Str.contains "382 ROUTE 59" line1 then Some USA
          else if Str.contains "51" line1 && Str.contains "BROADWAY" line1
               then Some BFMR
          else if Str.contains "44 INDIAN ROCK" line1 then Some BFMR
          else if Str.contains "24 TSIENNETO" line1 then Some BFMR
          else if Str.contains "38 SPRING" line1 then Some BFMR
          else if Str.contains "112" line1 && Str.contains "BROADWAY" line1
               then Some BFMR
          else if Str.contains "9 MAIN" line1 then Some BFMR
          else None)
  end.

End BuyClub.

Module DeliveryService.

Inductive t : Type := UPS | FedEx | USPS | Amazon.

Definition eqb (a b : t) : bool :=
  match a, b with
  | UPS, UPS | FedEx, FedEx | USPS, USPS | Amazon, Amazon => true
  | _, _ => false
  end.

(** The six patterns of [from_number]. *)
Definition re_TBA : Re.regex := Re.Lit "TBA".
Definition re_1Z : Re.regex := Re.Lit "1Z".
Definition re_digits20 : Re.regex := Re.Rep 20 Str.digit.
Definition re_s10 : Re.regex :=
  Re.Cat (Re.Rep 2 Str.upper_letter)
         (Re.Cat (Re.Rep 9 Str.digit) (Re.Rep 2 Str.upper_letter)).
Definition re_digits12 : Re.regex := Re.Rep 12 Str.digit.
Definition re_digits15 : Re.regex := Re.Rep 15 Str.digit.

(** [DeliveryService.from_number]. The argument is whatever
    [parse_tracking_id] returned; [re.match] raises on [None]. *)
Definition from_number (trk_number : option string) : result (option t) :=
  match trk_number with
  | None => Raise TypeError
  | Some s =>
      Ok (if Re.is_match (Re.rmatch re_TBA s) then Some Amazon
          else if Re.is_match (Re.rmatch re_1Z s) then Some UPS
          else if Re.is_match (Re.fullmatch re_digits20 s) then Some USPS
          else if Re.is_match (Re.fullmatch re_s10 s) then Some USPS
          else if Re.is_match (Re.fullmatch re_digits12 s) then Some FedEx
          else if Re.is_match (Re.fullmatch re_digits15 s) then Some FedEx
          else None)
  end.

End DeliveryService.

(** [@dataclass class Purchase]: [email] and [tracking_number] are compared;
    [shipping_service] and [buying_club] are filled by [__post_init__]. *)
Record Purchase : Type := mkPurchase {
  email : Email;
  tracking_number : option string;
  address : option Address;
  shipping_service : option DeliveryService.t;
  buying_club : option BuyClub.t
}.

(** [Purchase(email, tracking_id, address)]: [__init__] then
    [__post_init__], which raises when a classifier does. *)
Definition new_Purchase (e : Email) (tracking_id : option string)
           (a : option Address) : result Purchase :=
  service <- DeliveryService.from_number tracking_id ;;
  club <- BuyClub.from_address a ;;
  Ok (mkPurchase e tracking_id a service club).

Definition Purchase_eq (p q : Purchase) : bool :=
  Email_eq (email p) (email q) &&
  opt_str_eqb (tracking_number p) (tracking_number q).

(** ** Python's [==] and [in] across the classes the run loop compares

    A message reference is the [dict] the Gmail client lists: its ['id'] and
    ['threadId']. Two objects of different classes are never equal: both
    [__eq__] return [NotImplemented] and the objects are distinct. *)

Record MsgRef : Type := mkMsgRef {
  msg_id : string;
  threadId : string
}.

Definition MsgRef_eq (a b : MsgRef) : bool :=
  String.eqb (msg_id a) (msg_id b) && String.eqb (threadId a) (threadId b).

Inductive pyobj : Type :=
| PyDict (d : MsgRef)
| PyEmail (e : Email)
| PyPurchase (p : Purchase).

Definition py_eq (a b : pyobj) : bool :=
  match a, b with
  | PyDict x, PyDict y => MsgRef_eq x y
  | PyEmail x, PyEmail y => Email_eq x y
  | PyPurchase x, PyPurchase y => Purchase_eq x y
  | _, _ => false
  end.

(** [x in l] for a list [l]. *)
Definition py_in (x : pyobj) (l : list pyobj) : bool := existsb (py_eq x) l.

(** ** gmailtracking.py: the ledger files

    A ledger file is a sequence of lines. A line is either what
    [jsonpickle.encode(item) + "\n"] wrote for some item, which
    [jsonpickle.decode] turns back into that item, or text that
    [jsonpickle.decode] rejects. A file that does not exist yet is [None]. *)

Inductive line (A : Type) : Type :=
| Enc (item : A)
| Garbage (text : string).

Arguments Enc {A} item.
Arguments Garbage {A} text.

Definition file (A : Type) : Type := option (list (line A)).

Definition decode {A : Type} (l : line A) : result A :=
  match l with
  | Enc item => Ok item
  | Garbage _ => Raise ValueError
  end.

(** The list comprehension of [load]: the first line that raises ends it. *)
Fixpoint decode_all {A : Type} (ls : list (line A)) : result (list A) :=
  match ls with
  | [] => Ok []
  | l :: ls' =>
      item <- decode l ;;
      items <- decode_all ls' ;;
      Ok (item :: items)
  end.

(** [load(path)]: one [try] around opening the file and decoding every
    line; any exception gives the empty list. *)
Definition load {A : Type} (f : file A) : list A :=
  match f with
  | None => []
  | Some ls =>
      match decode_all ls with
      | Ok items => items
      | Raise _ => []
      end
  end.

Definition lines_of {A : Type} (f : file A) : list (line A) :=
  match f with
  | None => []
  | Some ls => ls
  end.

(** [append(item, path)]: mode ["a+"] creates the file when it is missing. *)
Definition append {A : Type} (item : A) (f : file A) : file A :=
  Some (lines_of f ++ [Enc item]).

(** [save(itemlist, path)]: mode ["w+"] empties the file, then one line per
    item is written. *)
Definition save {A : Type} (itemlist : list A) (f : file A) : file A :=
  Some (map Enc itemlist).

(** ** gmailtracking.py: the external collaborators *)

(** What [service.users().messages().list(...).execute()] returns: it
    raises, or it is a dict with an optional ['messages'] list and an
    optional ['nextPageToken']; the token stands for the response the next
    request with it will get. *)
Inductive response : Type :=
| Failed (e : exn)
| Response (messages : option (list MsgRef)) (nextPageToken : page_token)
with page_token : Type :=
| NoToken
| Token (next : response).

(** An [email.message.Message]: the four headers [main] reads ([None] when
    absent) and the payloads of its parts. The type covers the multipart
    messages whose parts carry text: a message that is not multipart, on
    which [get_payload(0)] raises [TypeError], and a part that is itself
    multipart, whose [get_payload()] is a list, have no counterpart in
    it. *)
Record Message : Type := mkMessage {
  header_To : option string;
  header_From : option string;
  header_Date : option string;
  header_Subject : option string;
  parts : list string
}.

Record World : Type := mkWorld {
  (** the first [list] request, by its [maxResults] *)
  gmail_list : Z -> response;
  (** [GetMimeMessage(service, msg_id)] *)
  gmail_get : string -> result Message;
  (** [URLExtract().find_urls(text)] *)
  find_urls : string -> list string;
  (** [requests.get(url).text] *)
  http_get : string -> result string;
  (** the [.text] of each tag of [Soup(html, "html.parser").findAll('a')] *)
  soup_anchor_texts : string -> list string;
  (** the [stripped_strings] of
      [Soup(html, 'html.parser').find(id='3D"criticalInfo"').find("td")],
      [None] when either [find] returns [None] *)
  soup_critical_info : string -> option (list string)
}.

(** The [while] loop of [get_messages]: [messages] is the list so far, the
    second argument the ['nextPageToken'] of the current response. *)
Fixpoint get_messages_pages (max_results : Z) (messages : option (list MsgRef))
         (nextPageToken : page_token) : result (option (list MsgRef)) :=
  match nextPageToken with
  | NoToken => Ok messages
  | Token next =>
      match messages with
      | None => Raise TypeError
      | Some ms =>
          if (Z.of_nat (List.length ms) <? max_results)%Z then
            match next with
            | Failed e => Raise e
            | Response page token =>
                match page with
                | None => Raise KeyError
                | Some p => get_messages_pages max_results (Some (ms ++ p)) token
                end
            end
          else Ok messages
      end
  end.

(** [get_messages(service, query, max_results)]. *)
Definition get_messages (w : World) (max_results : Z)
  : result (option (list MsgRef)) :=
  match gmail_list w max_results with
  | Failed e => Raise e
  | Response messages token => get_messages_pages max_results messages token
  end.

Definition GetMimeMessage (w : World) (msg_id : string) : result Message :=
  gmail_get w msg_id.

(** [get_message_count()]: [argv1] is [int(sys.argv[1])] when the argument
    was given. *)
Definition get_message_count (argv1 : option Z) : Z :=
  match argv1 with
  | Some n => n
  | None => 75%Z
  end.

(** ** gmailtracking.py: parsing text *)

Definition nth_or_IndexError {A : Type} (l : list A) (n : nat) : result A :=
  match nth_error l n with
  | Some a => Ok a
  | None => Raise IndexError
  end.

(** [next(x for x in l if p(x))] without a default. *)
Definition next_where {A : Type} (p : A -> bool) (l : list A) : result A :=
  match List.find p l with
  | Some a => Ok a
  | None => Raise StopIteration
  end.

(** The pattern "(STE|UNIT|APT|DEPT|RM|FL|BLDG)". *)
Definition re_unit_keyword : Re.regex :=
  Re.Alt (Re.Lit "STE") (Re.Alt (Re.Lit "UNIT") (Re.Alt (Re.Lit "APT")
  (Re.Alt (Re.Lit "DEPT") (Re.Alt (Re.Lit "RM") (Re.Alt (Re.Lit "FL")
  (Re.Lit "BLDG")))))).

(** The first pattern of [parse_address]: group 1 is a greedy [.*], then one
    space, then group 2 ([re_unit_part]), which is a unit keyword (group 3)
    and a greedy [.*]. *)
Definition re_unit_part : Re.regex :=
  Re.Group 2 (Re.Cat (Re.Group 3 re_unit_keyword) (Re.Star Re.dot)).

Definition re_line1_2 : Re.regex :=
  Re.Cat (Re.Group 1 (Re.Star Re.dot)) (Re.Cat (Re.Lit " ") re_unit_part).

(** The second pattern of [parse_address]: group 1 is a greedy [[^,]*], then
    a comma and a space, then group 2 [[A-Z]{2}], a lazy [.*?] and group 3
    [[0-9]{5}]. *)
Definition re_citystatezip : Re.regex :=
  Re.Cat (Re.Group 1 (Re.Star (Re.any_but [","%char])))
  (Re.Cat (Re.Lit ", ")
  (Re.Cat (Re.Group 2 (Re.Rep 2 Str.upper_letter))
  (Re.Cat (Re.StarLazy Re.dot)
          (Re.Group 3 (Re.Rep 5 Str.digit))))).

(** [parse_address(line1_2, city_state_zip)]. *)
Definition parse_address (line1_2 city_state_zip : string) : result Address :=
  let line1_2_matches := Re.search re_line1_2 line1_2 in
  line1 <- Re.group_of line1_2_matches 1 ;;
  line2 <- Re.group_of line1_2_matches 2 ;;
  let citystatezip_matches := Re.search re_citystatezip city_state_zip in
  city <- Re.group_of citystatezip_matches 1 ;;
  state <- Re.group_of citystatezip_matches 2 ;;
  zipcode <- Re.group_of citystatezip_matches 3 ;;
  Ok (mkAddress line1 line2 city state zipcode None).

Definition find_amazon_tracking_urls_in_plaintext_body (w : World)
           (text : string) : result string :=
  let urls := find_urls w text in
  next_where (fun x => Str.contains "ship" x && Str.contains "track" x) urls.

(** The part of [find_amazon_tracking_ID_in_tracking_url_html] after
    [findAll]: [atags] are the texts of the anchors, in document order. *)
Definition tracking_ID_of_anchor_texts (atags : list string) : result string :=
  text <- next_where (fun x => Str.contains "Tracking ID" x) atags ;;
  Ok (Str.drop 13 text).

Definition find_amazon_tracking_ID_in_tracking_url_html (w : World)
           (html : string) : result string :=
  tracking_ID_of_anchor_texts (soup_anchor_texts w html).

(** [message.get_payload(i).get_payload()] for [i] 0 and 1, on a message
    of the kind [Message] covers; the properties below use the two
    functions where they return. *)
Definition get_email_body_as_plaintext (message : Message) : result string :=
  nth_or_IndexError (parts message) 0.

Definition get_email_body_as_html (message : Message) : result string :=
  nth_or_IndexError (parts message) 1.

Definition load_url (w : World) (url : string) : result string :=
  http_get w url.

(** ** gmailtracking.py: [class DeliveryServiceParser] *)

Module DeliveryServiceParser.

Import DeliveryService.

(** [parse_ds(message)]; [.lower()] of an absent header raises. *)
Definition parse_ds (message : Message) : result (option DeliveryService.t) :=
  match header_From message with
  | None => Raise AttributeError
  | Some from =>
      let from_header := Str.lower from in
      Ok (if Str.contains "ups.com" from_header then Some UPS
          else if Str.contains "fedex.com" from_header then Some FedEx
          else if Str.contains "amazon.com" from_header then Some Amazon
          else None)
  end.

(** The pattern of the UPS address: the label [Delivery Location:=C2=A0],
    then group 1: a greedy run without line feed, one line feed, and
    another greedy run without line feed. *)
Definition re_delivery_location : Re.regex :=
  Re.Cat (Re.Lit "Delivery Location:=C2=A0")
         (Re.Group 1 (Re.Cat (Re.Star (Re.any_but [Str.LF]))
                     (Re.Cat (Re.Lit (String Str.LF ""))
                             (Re.Star (Re.any_but [Str.LF]))))).

(** The pattern of the UPS tracking number: the label
    [Tracking Number:=C2=A0], then group 1: a greedy run without line feed
    or carriage return. *)
Definition re_tracking_number : Re.regex :=
  Re.Cat (Re.Lit "Tracking Number:=C2=A0")
         (Re.Group 1 (Re.Star (Re.any_but [Str.LF; Str.CR]))).

(** [re.sub(r'[^\w ,]', '', s)] and [re.sub(r'[^\w ]', '', s)]. *)
Definition keep_word_space_comma (s : string) : string :=
  Str.filter (fun c => Str.word c || Ascii.eqb c " " || Ascii.eqb c ",") s.
Definition keep_word_space (s : string) : string :=
  Str.filter (fun c => Str.word c || Ascii.eqb c " ") s.

Definition is_service (ds : option DeliveryService.t) (d : DeliveryService.t)
  : bool :=
  match ds with
  | Some d' => DeliveryService.eqb d' d
  | None => false
  end.

(** [parse_address(ds, message)]. *)
Definition parse_address (w : World) (ds : option DeliveryService.t)
           (message : Message) : result (option Address) :=
  if is_service ds UPS then
    plaintext_body <- get_email_body_as_plaintext message ;;
    let m := Re.search re_delivery_location plaintext_body in
    block <- Re.group_of m 1 ;;
    let lines := Str.splitlines block in
    l0 <- nth_or_IndexError lines 0 ;;
    l1 <- nth_or_IndexError lines 1 ;;
    a <- parse_address l0 l1 ;;
    Ok (Some a)
  else if is_service ds Amazon then
    html_body <- get_email_body_as_html message ;;
    match soup_critical_info w html_body with
    | None => Raise AttributeError
    | Some lines =>
        line1_2 <- nth_or_IndexError lines 1 ;;
        l2 <- nth_or_IndexError lines 2 ;;
        let city_state_zip := keep_word_space_comma l2 in
        a <- parse_address line1_2 city_state_zip ;;
        l0 <- nth_or_IndexError lines 0 ;;
        Ok (Some (mkAddress (line1 a) (line2 a) (city a) (state a)
                            (zipcode a) (Some (keep_word_space l0))))
    end
  else Ok None.

(** [parse_tracking_id(ds, message)]. *)
Definition parse_tracking_id (w : World) (ds : option DeliveryService.t)
           (message : Message) : result (option string) :=
  if is_service ds Amazon then
    plaintext_body <- get_email_body_as_plaintext message ;;
    tracking_url <- find_amazon_tracking_urls_in_plaintext_body w plaintext_body ;;
    html <- load_url w tracking_url ;;
    tracking_id <- find_amazon_tracking_ID_in_tracking_url_html w html ;;
    Ok (Some tracking_id)
  else if is_service ds UPS then
    plaintext_body <- get_email_body_as_plaintext message ;;
    let m := Re.search re_tracking_number plaintext_body in
    tracking_id <- Re.group_of m 1 ;;
    Ok (Some tracking_id)
  else Ok None.

End DeliveryServiceParser.

(** ** gmailtracking.py: [main] *)

(** What a run changes: the two ledger files ([tracking.data] and
    [tracking.errors]) and the list [newtrackingids]. *)
Record Run : Type := mkRun {
  data_file : file Purchase;
  error_file : file Email;
  newtrackingids : list string
}.

Definition load_data (st : Run) : list Purchase := load (data_file st).
Definition load_errors (st : Run) : list Email := load (error_file st).

Definition append_to_data (purchase : Purchase) (st : Run) : Run :=
  mkRun (append purchase (data_file st)) (error_file st) (newtrackingids st).

Definition append_to_errors (e : Email) (st : Run) : Run :=
  mkRun (data_file st) (append e (error_file st)) (newtrackingids st).

(** [save_data(purchases)]. *)
Definition save_data (purchases : list Purchase) (st : Run) : Run :=
  mkRun (save purchases (data_file st)) (error_file st) (newtrackingids st).

(** [newtrackingids.append(purchase.tracking_number)]; the number of a
    constructed [Purchase] is a [str]. *)
Definition note_tracking_number (purchase : Purchase) (st : Run) : Run :=
  mkRun (data_file st) (error_file st)
        (newtrackingids st ++
         match tracking_number purchase with
         | Some t => [t]
         | None => []
         end).

(** The two list comprehensions before the loop. *)
Definition new_messages (processed_ids : list string) (messages : list MsgRef)
  : list MsgRef :=
  filter (fun x => negb (existsb (String.eqb (msg_id x)) processed_ids))
         messages.

Definition filtered_errors_handled (errors : list Email)
           (new_messages : list MsgRef) : list MsgRef :=
  filter (fun x => negb (py_in (PyDict x) (map PyEmail errors))) new_messages.

(** The body of the inner [try]: classify, extract, assemble. *)
Definition extract (w : World) (e : Email) (message : Message)
  : result Purchase :=
  ds <- DeliveryServiceParser.parse_ds message ;;
  a <- DeliveryServiceParser.parse_address w ds message ;;
  tracking_id <- DeliveryServiceParser.parse_tracking_id w ds message ;;
  new_Purchase e tracking_id a.

(** One iteration of the [for] loop. [data] and [errors] are the lists
    loaded before the loop; the loop never updates them. *)
Definition process_message (w : World) (data : list Purchase)
           (errors : list Email) (st : Run) (x : MsgRef) : Run :=
  let message_id := msg_id x in
  match GetMimeMessage w message_id with
  | Raise _ => st
  | Ok message =>
      let e := mkEmail message_id (header_To message) (header_From message)
                       (header_Date message) (header_Subject message) in
      match extract w e message with
      | Ok purchase =>
          if negb (py_in (PyPurchase purchase) (map PyPurchase data))
          then note_tracking_number purchase (append_to_data purchase st)
          else st
      | Raise _ =>
          if negb (py_in (PyEmail e) (map PyEmail errors))
          then append_to_errors e st
          else st
      end
  end.

(** [main()]: the state after the run, or the exception that ended it. A
    [None] from [get_messages] cannot be iterated. *)
Definition main (w : World) (argv1 : option Z) (st : Run) : result Run :=
  let data := load_data st in
  let processed_ids := map (fun x => Id (email x)) data in
  let errors := load_errors st in
  let start := mkRun (data_file st) (error_file st) [] in
  let load_count := get_message_count argv1 in
  fetched <- get_messages w load_count ;;
  match fetched with
  | None => Raise TypeError
  | Some messages =>
      let todo :=
        filtered_errors_handled errors (new_messages processed_ids messages) in
      Ok (fold_left (process_message w data errors) todo start)
  end.

(** What [main] prints last. *)
Definition report (st : Run) : string := Str.join_lines (newtrackingids st).

(** * Specification-side definitions *)

(** ** Address equality as the data-model section words it *)

(** The five fields the specification lets take part in equality. *)
Definition same_but_recipient (a b : Address) : Prop :=
  line1 a = line1 b /\ line2 a = line2 b /\ city a = city b /\
  state a = state b /\ zipcode a = zipcode b.

(** ** The tracking-number classifier as the specification words it

    Written with plain string tests, no pattern engine; [letter] is the
    class the words "2 letters" stand for. *)

Definition shaped (n : nat) (p : ascii -> bool) (s : string) : bool :=
  (String.length s =? n)%nat && Str.all p s.

Definition shaped_s10 (letter : ascii -> bool) (s : string) : bool :=
  (String.length s =? 13)%nat &&
  Str.all letter (Str.take 2 s) &&
  Str.all Str.digit (Str.take 9 (Str.drop 2 s)) &&
  Str.all letter (Str.drop 11 s).

Definition classify_by_rules (letter : ascii -> bool) (s : string)
  : option DeliveryService.t :=
  if Str.startswith "TBA" s then Some DeliveryService.Amazon
  else if Str.startswith "1Z" s then Some DeliveryService.UPS
  else if shaped 20 Str.digit s || shaped_s10 letter s
       then Some DeliveryService.USPS
  else if shaped 12 Str.digit s || shaped 15 Str.digit s
       then Some DeliveryService.FedEx
  else None.

(** A letter of either case: the specification says "2 letters". *)
Definition any_letter (c : ascii) : bool :=
  Str.upper_letter c || Str.lower_letter c.

Definition classifyByTrackingNumber : string -> option DeliveryService.t :=
  classify_by_rules any_letter.

(** ** The Amazon tracking ID as the specification words it: the first
    anchor whose text begins with the label, without its first 12
    characters. *)
Definition spec_tracking_ID (atags : list string) : result string :=
  text <- next_where (fun x => Str.startswith "Tracking ID " x) atags ;;
  Ok (Str.drop 12 text).

(** ** Ledger lines *)

Definition well_formed {A : Type} (l : line A) : bool :=
  match l with
  | Enc _ => true
  | Garbage _ => false
  end.

(** Every line of the file decodes (a missing file has no line). *)
Definition intact {A : Type} (f : file A) : bool :=
  forallb well_formed (lines_of f).

(** The records of the well-formed lines, in order: what a reload that
    isolated faults per line would return. *)
Fixpoint recoverable {A : Type} (ls : list (line A)) : list A :=
  match ls with
  | [] => []
  | Enc item :: ls' => item :: recoverable ls'
  | Garbage _ :: ls' => recoverable ls'
  end.

(** ** The split of [line1_2], written directly *)

Definition unit_keywords : list string :=
  ["STE"; "UNIT"; "APT"; "DEPT"; "RM"; "FL"; "BLDG"].

Definition starts_with_unit_keyword (s : string) : bool :=
  existsb (fun k => Str.startswith k s) unit_keywords.

Definition single_line (s : string) : bool := Str.all Re.dot s.

(** The rightmost position where a space is followed by text that begins
    with a unit keyword: what is before the space, and what is after it. *)
Fixpoint rsplit_unit (s : string) : option (string * string) :=
  match s with
  | EmptyString => None
  | String c s' =>
      match rsplit_unit s' with
      | Some (l, r) => Some (String c l, r)
      | None =>
          if Ascii.eqb c " " && starts_with_unit_keyword s'
          then Some (EmptyString, s')
          else None
      end
  end.

(** ** Where a fragment stands in a body *)

(** [s.partition(sep)] when [sep] occurs in [s]: the text before its first
    occurrence and the text after it. *)
Fixpoint partition (sep s : string) : option (string * string) :=
  match Str.strip_prefix sep s with
  | Some rest => Some (EmptyString, rest)
  | None =>
      match s with
      | EmptyString => None
      | String c s' =>
          match partition sep s' with
          | Some (before, rest) => Some (String c before, rest)
          | None => None
          end
      end
  end.

(** The longest prefix of [s] made of characters of [p], and what follows
    it. *)
Fixpoint run (p : ascii -> bool) (s : string) : string :=
  match s with
  | EmptyString => EmptyString
  | String c s' => if p c then String c (run p s') else EmptyString
  end.

Fixpoint after_run (p : ascii -> bool) (s : string) : string :=
  match s with
  | EmptyString => EmptyString
  | String c s' => if p c then after_run p s' else s
  end.

(** The text is over, or goes on with a line boundary of [splitlines]. *)
Definition at_line_break (s : string) : bool :=
  match s with
  | EmptyString => true
  | String c _ => Str.linebreak c
  end.

(** The text is over, or goes on with a line feed or a carriage return. *)
Definition at_LF_or_CR (s : string) : bool :=
  match s with
  | EmptyString => true
  | String c _ => Ascii.eqb c Str.LF || Ascii.eqb c Str.CR
  end.

(** The senders no extractor exists for. *)
Definition unsupported (ds : option DeliveryService.t) : Prop :=
  ds = None \/ ds = Some DeliveryService.FedEx \/ ds = Some DeliveryService.USPS.

(** * Concrete inputs *)

Module Examples.

Definition nl : string := String Str.LF "".

Definition home : Address :=
  mkAddress "123 Main St" "APT 4" "Springfield" "IL" "62704" None.
Definition home_of_ann : Address :=
  mkAddress "123 Main St" "APT 4" "Springfield" "IL" "62704" (Some "Ann").

(** The body of the end-to-end scenario. *)
Definition ups_body : string :=
  "Delivery Location:=C2=A0123 Main St APT 4" ++ nl ++
  "Springfield, IL 62704" ++ nl ++
  "Tracking Number:=C2=A01Z123".

Definition ups_message : Message :=
  mkMessage (Some "me@example.com") (Some "UPS <pkginfo@ups.com>")
            (Some "Mon, 1 Jan 2024") (Some "Your package") [ups_body].

Definition fedex_message : Message :=
  mkMessage (Some "me@example.com") (Some "FedEx <track@fedex.com>")
            (Some "Tue, 2 Jan 2024") (Some "Shipment") ["hello"; "<p>hello</p>"].

Definition m1 : MsgRef := mkMsgRef "m1" "t1".
Definition m2 : MsgRef := mkMsgRef "m2" "t2".
Definition m3 : MsgRef := mkMsgRef "m3" "t3".
Definition m4 : MsgRef := mkMsgRef "m4" "t4".

(** A mailbox with a UPS notice [m1] and a FedEx notice [m2]; no web
    page, no markup. *)
Definition mailbox : World :=
  mkWorld
    (fun _ => Response (Some [m1; m2]) NoToken)
    (fun i => if String.eqb i "m1" then Ok ups_message
              else if String.eqb i "m2" then Ok fedex_message
              else Raise HttpError)
    (fun _ => [])
    (fun _ => Raise HttpError)
    (fun _ => [])
    (fun _ => None).

Definition fresh : Run := mkRun None None [].

Definition after (w : World) (st : Run) : Run :=
  match main w None st with
  | Ok st' => st'
  | Raise _ => st
  end.

Definition after_first_run : Run := Eval vm_compute in after mailbox fresh.

(** The error entry a failed run leaves for [m1]. *)
Definition failed_m1 : Email := mkEmail "m1" None None None None.

(** A mailbox that answers the first request for at most 3 messages with
    a page of 2 and a token, and the request with that token with 2
    more. *)
Definition short_pages : World :=
  mkWorld
    (fun _ => Response (Some [m1; m2]) (Token (Response (Some [m3; m4]) NoToken)))
    (fun _ => Raise HttpError)
    (fun _ => []) (fun _ => Raise HttpError) (fun _ => []) (fun _ => None).

Definition numbered (n : nat) : MsgRef :=
  let i := NilEmpty.string_of_uint (Nat.to_uint n) in mkMsgRef i i.

(** A mailbox of 600 messages behind the documented page sizes of the
    Gmail API: at most 500 per request, 100 when [maxResults] is not
    given. Asked for 550, it answers 500 and a token; the request with
    the token gets the other 100. *)
Definition large_mailbox : World :=
  mkWorld
    (fun _ => Response (Some (List.map numbered (seq 1 500)))
                       (Token (Response (Some (List.map numbered (seq 501 100)))
                                        NoToken)))
    (fun _ => Raise HttpError)
    (fun _ => []) (fun _ => Raise HttpError) (fun _ => []) (fun _ => None).

(** The scenario again inside a longer body with CR LF line ends around
    the two fragments. *)
Definition ups_body_in_context : string :=
  "Hello," ++ String Str.CR nl ++
  "Delivery Location:=C2=A0123 Main St APT 4" ++ nl ++
  "Springfield, IL 62704" ++ String Str.CR nl ++
  "Weight: 2 lbs" ++ String Str.CR nl ++
  "Tracking Number:=C2=A01Z123" ++ String Str.CR nl ++
  "Thank you.".

Definition ledger_with_corrupt_line : file Email :=
  Some [Enc (mkEmail "m1" None None None None);
        Garbage "{";
        Enc (mkEmail "m2" None None None None)].

End Examples.

(** * Definitions for the further properties *)

Scheme response_page_ind := Induction for response Sort Prop
  with page_token_response_ind := Induction for page_token Sort Prop.

(** The pages behind a token, in the order the requests with the successive
    tokens return them: the ['messages'] of each response down the chain,
    up to the first request that raises. *)
Fixpoint pages_of_response (r : response) : list (list MsgRef) :=
  match r with
  | Failed _ => []
  | Response messages token =>
      match messages with
      | Some page => page :: later_pages token
      | None => later_pages token
      end
  end
with later_pages (token : page_token) : list (list MsgRef) :=
  match token with
  | NoToken => []
  | Token next => pages_of_response next
  end.

(** The [Email] that [main] builds for a fetched message. *)
Definition envelope (x : MsgRef) (message : Message) : Email :=
  mkEmail (msg_id x) (header_To message) (header_From message)
          (header_Date message) (header_Subject message).

(** The tracking numbers of a list of purchases, as [main] collects them. *)
Definition tracking_numbers (ps : list Purchase) : list string :=
  flat_map (fun p => match tracking_number p with
                     | Some t => [t]
                     | None => []
                     end) ps.

(** A purchase the loop may append for [x], and an error entry it may
    append for [x]. *)
Definition filed_from (w : World) (data : list Purchase) (msgs : list MsgRef)
           (p : Purchase) : Prop :=
  exists x message,
    In x msgs /\ GetMimeMessage w (msg_id x) = Ok message /\
    extract w (envelope x message) message = Ok p /\
    py_in (PyPurchase p) (map PyPurchase data) = false.

Definition failed_from (w : World) (errors : list Email) (msgs : list MsgRef)
           (e : Email) : Prop :=
  exists x message err,
    In x msgs /\ GetMimeMessage w (msg_id x) = Ok message /\
    e = envelope x message /\
    extract w e message = Raise err /\
    py_in (PyEmail e) (map PyEmail errors) = false.

(** The text the UPS address pattern captures, written directly: what
    follows the first occurrence of the label up to the next line feed, the
    line feed, and the line after it; nothing when the label is absent or no
    line feed follows it. *)
Definition ups_address_block (body : string) : option string :=
  match partition "Delivery Location:=C2=A0" body with
  | None => None
  | Some (_, rest) =>
      match after_run Re.dot rest with
      | EmptyString => None
      | String _ tail =>
          Some (run Re.dot rest ++ String Str.LF (run Re.dot tail))%string
      end
  end.

(** Further concrete inputs. *)

Module Cases.

(** A mailbox in which nothing matches the query: the response has no
    ['messages'] key. *)
Definition empty_mailbox : World :=
  mkWorld
    (fun _ => Response None NoToken)
    (fun _ => Raise HttpError)
    (fun _ => []) (fun _ => Raise HttpError) (fun _ => []) (fun _ => None).


(** The purchase assembled from the UPS notice [m1]. *)
Definition ups_purchase : Purchase :=
  mkPurchase (envelope Examples.m1 Examples.ups_message)
             (Some "1Z123") (Some Examples.home)
             (Some DeliveryService.UPS) None.

Definition quigley_mixed_case : Address :=
  mkAddress "144 Quigley Blvd" "STE 1" "Henderson" "NV" "89011" None.
Definition quigley_capitals : Address :=
  mkAddress "144 QUIGLEY BLVD" "UNIT 7" "Reno" "NV" "89501" (Some "Ann").

Definition from_ups_capitals : Message :=
  mkMessage None (Some "UPS <PKGINFO@UPS.COM>") None None [].
Definition from_ups_small : Message :=
  mkMessage None (Some "ups <pkginfo@ups.com>") None None ["hello"].

(** An Amazon shipment notice, and the world around it: two URLs in its
    plain text, the tracking page behind the second, and the marked block
    of its markup. *)
Definition amazon_message : Message :=
  mkMessage (Some "me@example.com")
            (Some "Amazon.com <shipment-tracking@amazon.com>")
            (Some "Wed, 3 Jan 2024") (Some "Your order has shipped")
            ["see https://www.amazon.com/help or https://www.amazon.com/ship-track?id=7";
             "<table id=3DcriticalInfo>...</table>"].

Definition amazon_world : World :=
  mkWorld
    (fun _ => Response (Some [Examples.m3]) NoToken)
    (fun _ => Ok amazon_message)
    (fun _ => ["https://www.amazon.com/help";
               "https://www.amazon.com/ship-track?id=7"])
    (fun url => if String.eqb url "https://www.amazon.com/ship-track?id=7"
                then Ok "<html>tracking page</html>"
                else Raise HttpError)
    (fun _ => ["Your Orders"; "Tracking ID: TBA123456789012"])
    (fun _ => Some ["Ann O'Lee"; "123 Main St APT 4"; "Springfield, IL. 62704"]).

(** A mailbox that lists the UPS notice [m1] and a message [m3] whose
    fetch fails. *)
Definition unfetchable : World :=
  mkWorld
    (fun _ => Response (Some [Examples.m1; Examples.m3]) NoToken)
    (fun i => if String.eqb i "m1" then Ok Examples.ups_message
              else Raise HttpError)
    (fun _ => []) (fun _ => Raise HttpError) (fun _ => []) (fun _ => None).

Definition after_unfetchable : Run :=
  Eval vm_compute in Examples.after unfetchable Examples.fresh.




(** A mailbox of six messages in pages of two: a first page with a token
    and two later pages. *)
Definition m5 : MsgRef := mkMsgRef "m5" "t5".
Definition m6 : MsgRef := mkMsgRef "m6" "t6".

Definition three_pages_first : list MsgRef := [Examples.m1; Examples.m2].
Definition three_pages_token : page_token :=
  Token (Response (Some [Examples.m3; Examples.m4])
                  (Token (Response (Some [m5; m6]) NoToken))).

Definition three_pages : World :=
  mkWorld
    (fun _ => Response (Some three_pages_first) three_pages_token)
    (fun _ => Raise HttpError)
    (fun _ => []) (fun _ => Raise HttpError) (fun _ => []) (fun _ => None).

(** A UPS notice with a one-line body. *)
Definition ups_one_line : Message :=
  mkMessage (Some "me@example.com") (Some "UPS <pkginfo@ups.com>")
            (Some "Thu, 4 Jan 2024") (Some "Your package")
            ["Delivery Location:=C2=A0123 Main St APT 4 Tracking Number:=C2=A01Z123"].

End Cases.

(** * Properties *)

(** ** Strings *)

Lemma opt_str_eqb_eq (a b : option string) :
  opt_str_eqb a b = true <-> a = b.
Proof.
  destruct a as [x|], b as [y|]; simpl; try (split; congruence).
  rewrite String.eqb_eq. split; congruence.
Qed.

Lemma opt_str_eqb_refl (a : option string) : opt_str_eqb a a = true.
Proof. now apply opt_str_eqb_eq. Qed.

(** ** Address equality *)

Lemma Address_eq_spec (a b : Address) : Address_eq a b = true <-> a = b.
Proof.
  unfold Address_eq. rewrite !andb_true_iff, !String.eqb_eq, opt_str_eqb_eq.
  destruct a, b; simpl. split.
  - intros [[[[[-> ->] ->] ->] ->] ->]. reflexivity.
  - intros E. inversion E. tauto.
Qed.

(** C4, as stated, fails: two addresses that agree on [line1], [line2],
    [city], [state] and [zipcode] and differ only in [recipient] are not
    equal. *)
Lemma C4_recipient_is_compared :
  same_but_recipient Examples.home Examples.home_of_ann /\
  Address_eq Examples.home Examples.home_of_ann = false.
Proof. unfold same_but_recipient. simpl. repeat split. Qed.

(** C4, amended: two [Address] values are equal exactly when all six
    fields, [recipient] included, are equal. *)
Theorem C4_Address_eq_all_six_fields (a b : Address) :
  Address_eq a b = true <->
  same_but_recipient a b /\ recipient a = recipient b.
Proof.
  rewrite Address_eq_spec. unfold same_but_recipient. split.
  - intros ->. tauto.
  - destruct a, b; simpl. intros [(-> & -> & -> & -> & ->) ->]. reflexivity.
Qed.

(** ** Reloading a ledger file *)

Lemma decode_all_intact {A : Type} (ls : list (line A)) :
  forallb well_formed ls = true -> decode_all ls = Ok (recoverable ls).
Proof.
  induction ls as [|[item|text] ls IH]; simpl; intros H.
  - reflexivity.
  - rewrite (IH H). reflexivity.
  - discriminate.
Qed.

Lemma decode_all_corrupt {A : Type} (ls : list (line A)) :
  forallb well_formed ls = false -> exists e, decode_all ls = Raise e.
Proof.
  induction ls as [|[item|text] ls IH]; simpl; intros H.
  - discriminate.
  - destruct (IH H) as [e ->]. now exists e.
  - now exists ValueError.
Qed.

Lemma load_intact {A : Type} (f : file A) :
  intact f = true -> load f = recoverable (lines_of f).
Proof.
  destruct f as [ls|]; simpl; [|reflexivity].
  unfold intact; simpl. intros H. now rewrite (decode_all_intact _ H).
Qed.

(** What [load] returns was written on a line of the file. *)
Lemma load_In_lines {A : Type} (f : file A) (item : A) :
  In item (load f) -> In (Enc item) (lines_of f).
Proof.
  destruct f as [ls|]; simpl; [|tauto].
  destruct (forallb well_formed ls) eqn:W.
  - rewrite (decode_all_intact _ W). clear W.
    induction ls as [|[i|t] ls IH]; simpl; [tauto| |]; intros H.
    + destruct H as [->|H]; auto.
    + auto.
  - destruct (decode_all_corrupt _ W) as [e ->]. simpl. tauto.
Qed.

Lemma recoverable_app {A : Type} (l1 l2 : list (line A)) :
  recoverable (l1 ++ l2) = recoverable l1 ++ recoverable l2.
Proof.
  induction l1 as [|[i|t] l1 IH]; simpl; [reflexivity| |]; now rewrite ?IH.
Qed.

Lemma recoverable_Enc {A : Type} (items : list A) :
  recoverable (map Enc items) = items.
Proof. induction items; simpl; congruence. Qed.

(** C7, as stated, fails: a file with two well-formed lines around a
    corrupt one reloads as the empty list; both records are lost. *)
Lemma C7_one_corrupt_line_loses_all :
  recoverable (lines_of Examples.ledger_with_corrupt_line)
  = [mkEmail "m1" None None None None; mkEmail "m2" None None None None] /\
  load Examples.ledger_with_corrupt_line = [].
Proof. split; reflexivity. Qed.

(** C7, amended: the reload is all or nothing. A file whose lines are all
    well-formed gives one record per line, in order; a file with any corrupt
    line, like a missing file, gives the empty list. *)
Theorem C7_load_all_or_nothing {A : Type} (f : file A) :
  load f = if intact f then recoverable (lines_of f) else [].
Proof.
  destruct (intact f) eqn:W.
  - now apply load_intact.
  - destruct f as [ls|]; [|reflexivity].
    unfold intact in W; simpl in *.
    now destruct (decode_all_corrupt _ W) as [e ->].
Qed.

(** ** The Amazon tracking ID *)

(** C3: the code takes the first anchor whose text contains "Tracking ID"
    anywhere and removes 13 characters. For a page whose only anchor reads
    "Tracking ID TBA123456789012" it returns "BA123456789012", where the
    claim (and the docstrings) give "TBA123456789012"; an anchor that only
    mentions the label is selected although it does not begin with it. *)
Theorem C3_thirteen_characters_removed :
  tracking_ID_of_anchor_texts ["Tracking ID TBA123456789012"]
    = Ok "BA123456789012" /\
  spec_tracking_ID ["Tracking ID TBA123456789012"] = Ok "TBA123456789012" /\
  tracking_ID_of_anchor_texts ["Your Tracking ID is below"; "Tracking ID TBA1"]
    = Ok " ID is below" /\
  spec_tracking_ID ["Your Tracking ID is below"; "Tracking ID TBA1"]
    = Ok "TBA1" /\
  tracking_ID_of_anchor_texts ["Your Tracking ID is below"] = Ok " ID is below" /\
  spec_tracking_ID ["Your Tracking ID is below"] = Raise StopIteration.
Proof. repeat split. Qed.

(** The part of C3 the code does keep: without an anchor that contains the
    label, the extraction raises. *)
Lemma tracking_ID_no_anchor (atags : list string) :
  (forall x, In x atags -> Str.contains "Tracking ID" x = false) ->
  tracking_ID_of_anchor_texts atags = Raise StopIteration.
Proof.
  intros H. unfold tracking_ID_of_anchor_texts, next_where.
  destruct (find _ atags) as [x|] eqn:F; [|reflexivity].
  apply find_some in F. destruct F as [I C]. rewrite (H _ I) in C. discriminate.
Qed.

(** ** Fetching *)

(** C6: the pages after the first are appended whole. Asked for at most 3
    messages, a mailbox that answers with a page of 2 and then a page of 2
    makes [get_messages] return 4; asked for at most 550, a mailbox of 600
    behind the Gmail page sizes (500, then 100) makes it return 600. *)
Theorem C6_get_messages_exceeds_max_results :
  get_messages Examples.short_pages 3
    = Ok (Some [Examples.m1; Examples.m2; Examples.m3; Examples.m4]) /\
  exists l, get_messages Examples.large_mailbox 550 = Ok (Some l) /\
            List.length l = 600.
Proof.
  split; [reflexivity|].
  eexists. split; [reflexivity|]. vm_compute. reflexivity.
Qed.

(** ** Filtering *)

(** A message reference never equals an error-ledger entry, so the second
    filter of [main] keeps every message. *)
Lemma filtered_errors_handled_keeps_all (errors : list Email)
      (msgs : list MsgRef) :
  filtered_errors_handled errors msgs = msgs.
Proof.
  unfold filtered_errors_handled.
  assert (E : forall x, py_in (PyDict x) (map PyEmail errors) = false).
  { intros x. induction errors; simpl; auto. }
  induction msgs as [|x msgs IH]; simpl; [reflexivity|].
  now rewrite E, IH.
Qed.

(** The first filter does what C1 says of the success ledger. *)
Lemma new_messages_not_processed (ids : list string) (msgs : list MsgRef)
      (x : MsgRef) :
  In x (new_messages ids msgs) <-> In x msgs /\ ~ In (msg_id x) ids.
Proof.
  unfold new_messages. rewrite filter_In, negb_true_iff.
  split; intros [I H]; split; auto.
  - intros J. apply not_true_iff_false in H. apply H.
    apply existsb_exists. exists (msg_id x). split; [auto | apply String.eqb_refl].
  - apply not_true_iff_false. intros E. apply H.
    apply existsb_exists in E. destruct E as (i & J & E).
    apply String.eqb_eq in E. now subst.
Qed.

(** C1: with [m1] recorded in the error ledger and absent from the success
    ledger, the Filtering step keeps [m1] and the loop processes it again;
    whatever the error ledger holds, the second filter removes nothing. *)
Theorem C1_error_ledger_does_not_filter :
  filtered_errors_handled [Examples.failed_m1]
    (new_messages [] [Examples.m1]) = [Examples.m1] /\
  forall errors msgs, filtered_errors_handled errors msgs = msgs.
Proof. split; [reflexivity | apply filtered_errors_handled_keeps_all]. Qed.

(** ** String lemmas *)

Lemma length_drop (n : nat) (s : string) :
  String.length (Str.drop n s) = String.length s - n.
Proof.
  revert s. induction n as [|n IH]; intros [|c s]; simpl; auto.
Qed.

Lemma drop_drop (m n : nat) (s : string) :
  Str.drop m (Str.drop n s) = Str.drop (n + m) s.
Proof.
  revert s. induction n as [|n IH]; intros s; simpl; [reflexivity|].
  destruct s as [|c s]; simpl; [now destruct m | apply IH].
Qed.

Lemma take_all (n : nat) (s : string) :
  String.length s <= n -> Str.take n s = s.
Proof.
  revert s. induction n as [|n IH]; intros [|c s]; simpl; intros H;
    try reflexivity; try lia.
  f_equal. apply IH. lia.
Qed.

Lemma length_zero_empty (s : string) :
  String.eqb s "" = (String.length s =? 0)%nat.
Proof. now destruct s. Qed.

Lemma strip_prefix_app (p s rest : string) :
  Str.strip_prefix p s = Some rest <-> s = (p ++ rest)%string.
Proof.
  revert s. induction p as [|a p IH]; intros s; simpl.
  - split; congruence.
  - destruct s as [|b s]; [split; discriminate|].
    destruct (Ascii.eqb_spec a b) as [->|N].
    + rewrite IH. split; congruence.
    + split; [discriminate | congruence].
Qed.

(** ** The pattern engine on the patterns of [from_number] *)

Lemma is_match_Lit (l s : string) :
  Re.is_match (Re.rmatch (Re.Lit l) s) = Str.startswith l s.
Proof.
  unfold Re.rmatch, Str.startswith; simpl.
  now destruct (Str.strip_prefix l s).
Qed.

(** A counted class followed by a test [f] on the rest. *)
Lemma rep_then (n : nat) (p : Re.charset) (f : string -> bool) (s : string) :
  match Re.rep n p s with Some s' => f s' | None => false end
  = (n <=? String.length s)%nat && Str.all p (Str.take n s) && f (Str.drop n s).
Proof.
  revert s. induction n as [|n IH]; intros s; simpl.
  - now destruct s.
  - destruct s as [|c s]; simpl; [reflexivity|].
    destruct (p c); simpl.
    + apply IH.
    + now rewrite andb_false_r.
Qed.

Lemma is_match_full_Rep (n : nat) (p : Re.charset) (s : string) :
  Re.is_match (Re.fullmatch (Re.Rep n p) s) = shaped n p s.
Proof.
  unfold Re.fullmatch, shaped; simpl.
  transitivity (match Re.rep n p s with
                | Some s' => String.eqb s' ""
                | None => false
                end).
  { destruct (Re.rep n p s) as [s'|]; [|reflexivity]. now destruct (String.eqb s' ""). }
  rewrite rep_then, length_zero_empty, length_drop.
  destruct (Nat.eqb_spec (String.length s) n) as [E|N].
  - subst n. rewrite Nat.leb_refl, Nat.sub_diag, take_all by lia.
    simpl. now rewrite andb_true_r.
  - destruct (Nat.leb_spec n (String.length s)); simpl; [|reflexivity].
    destruct (Nat.eqb_spec (String.length s - n) 0); [lia|].
    now rewrite andb_false_r.
Qed.

Lemma is_match_full_s10 (s : string) :
  Re.is_match (Re.fullmatch DeliveryService.re_s10 s)
  = shaped_s10 Str.upper_letter s.
Proof.
  unfold Re.fullmatch, DeliveryService.re_s10, shaped_s10; cbn [Re.exec].
  set (u := Str.upper_letter). set (d := Str.digit).
  transitivity
    (match Re.rep 2 u s with
     | Some s1 =>
         match Re.rep 9 d s1 with
         | Some s2 =>
             match Re.rep 2 u s2 with
             | Some s3 => String.eqb s3 ""
             | None => false
             end
         | None => false
         end
     | None => false
     end).
  { destruct (Re.rep 2 u s) as [s1|]; [|reflexivity].
    destruct (Re.rep 9 d s1) as [s2|]; [|reflexivity].
    destruct (Re.rep 2 u s2) as [s3|]; [|reflexivity].
    now destruct (String.eqb s3 ""). }
  rewrite (rep_then 2 u
             (fun s1 => match Re.rep 9 d s1 with
                        | Some s2 => match Re.rep 2 u s2 with
                                     | Some s3 => String.eqb s3 ""
                                     | None => false
                                     end
                        | None => false
                        end)).
  rewrite (rep_then 9 d
             (fun s2 => match Re.rep 2 u s2 with
                        | Some s3 => String.eqb s3 ""
                        | None => false
                        end)).
  rewrite (rep_then 2 u (fun s3 => String.eqb s3 "")).
  rewrite length_zero_empty, !length_drop, !drop_drop.
  change (2 + 9) with 11.
  assert (T : String.length s = 13 ->
              Str.take 2 (Str.drop 11 s) = Str.drop 11 s).
  { intros E. apply take_all. rewrite length_drop. lia. }
  apply eq_true_iff_eq.
  rewrite !andb_true_iff, !Nat.leb_le, !Nat.eqb_eq.
  split.
  - intros ((H1 & A) & (H2 & B) & (H3 & C) & H4).
    assert (E : String.length s = 13) by lia.
    rewrite (T E) in C. tauto.
  - intros (((E & A) & B) & C). rewrite (T E).
    repeat split; auto; lia.
Qed.

(** ** The tracking-number classifier *)

(** C5, as stated, fails: "ab123456789cd" fully matches 2 letters, 9 digits
    and 2 letters, so the rules of the claim give USPS; the code asks for
    capital letters and gives [None]. *)
Lemma C5_small_letters_are_not_matched :
  DeliveryService.from_number (Some "ab123456789cd") = Ok None /\
  classifyByTrackingNumber "ab123456789cd" = Some DeliveryService.USPS.
Proof. split; reflexivity. Qed.

(** C5, amended: [from_number] returns for every string, never raises, and
    its result is that of the rules of the claim, tried in order, with
    "2 letters" read as two letters of [A-Z]. *)
Theorem C5_from_number_total_and_by_rules (s : string) :
  DeliveryService.from_number (Some s)
  = Ok (classify_by_rules Str.upper_letter s).
Proof.
  unfold DeliveryService.from_number, classify_by_rules.
  unfold DeliveryService.re_TBA, DeliveryService.re_1Z,
    DeliveryService.re_digits20, DeliveryService.re_digits12,
    DeliveryService.re_digits15.
  rewrite !is_match_Lit, !is_match_full_Rep, is_match_full_s10.
  destruct (Str.startswith "TBA" s), (Str.startswith "1Z" s),
    (shaped 20 Str.digit s), (shaped_s10 Str.upper_letter s),
    (shaped 12 Str.digit s), (shaped 15 Str.digit s); reflexivity.
Qed.

(** ** More string lemmas *)

Lemma length_app (a b : string) :
  String.length (a ++ b) = String.length a + String.length b.
Proof. induction a; simpl; auto. Qed.

Lemma app_assoc_str (a b c : string) :
  ((a ++ b) ++ c)%string = (a ++ (b ++ c))%string.
Proof. induction a; simpl; congruence. Qed.

Lemma app_empty_r (a : string) : (a ++ "")%string = a.
Proof. induction a; simpl; congruence. Qed.

Lemma take_app (a b : string) : Str.take (String.length a) (a ++ b) = a.
Proof. induction a; simpl; [now destruct b | congruence]. Qed.

Lemma consumed_app (a b : string) : Re.consumed (a ++ b) b = a.
Proof.
  unfold Re.consumed. rewrite length_app.
  replace (String.length a + String.length b - String.length b)
    with (String.length a) by lia.
  apply take_app.
Qed.

Lemma consumed_empty (s : string) : Re.consumed s "" = s.
Proof.
  unfold Re.consumed; simpl. rewrite Nat.sub_0_r. now apply take_all.
Qed.

Lemma consumed_self (s : string) : Re.consumed s s = "".
Proof. unfold Re.consumed. rewrite Nat.sub_diag. now destruct s. Qed.

Lemma all_app (q : ascii -> bool) (a b : string) :
  Str.all q (a ++ b) = Str.all q a && Str.all q b.
Proof. induction a; simpl; [reflexivity | now rewrite IHa, andb_assoc]. Qed.

Lemma all_strip_prefix (q : ascii -> bool) (p s r : string) :
  Str.strip_prefix p s = Some r -> Str.all q s = true -> Str.all q r = true.
Proof.
  intros E H. apply strip_prefix_app in E. subst s.
  rewrite all_app in H. now apply andb_true_iff in H.
Qed.

(** ** The pattern engine: stars *)

(** A greedy star over a run it can swallow whole, before a continuation
    that accepts the end of the text. *)
Lemma star_greedy_all {A : Type} (p : Re.charset) (s : string)
      (k : string -> option A) (a : A) :
  Str.all p s = true -> k "" = Some a -> Re.star_greedy p s k = Some a.
Proof.
  intros H K. induction s as [|c s IH]; simpl; [exact K|].
  simpl in H. apply andb_true_iff in H. destruct H as [Hc Hs].
  now rewrite Hc, (IH Hs).
Qed.

(** ** The split of [line1_2] *)

Lemma exec_unit_part (t : string) (g : Re.groups) :
  single_line t = true ->
  if starts_with_unit_keyword t
  then exists k3, Re.exec re_unit_part t g (fun _ g' => Some g')
                  = Some ((2, t) :: (3, k3) :: g)
  else Re.exec re_unit_part t g (fun _ g' => Some g') = None.
Proof.
  intros L. unfold re_unit_part, re_unit_keyword. cbn [Re.exec].
  unfold starts_with_unit_keyword, unit_keywords. cbn [existsb].
  unfold Str.startswith.
  repeat match goal with
         | |- context [Str.strip_prefix ?kw t] =>
             let E := fresh "E" in
             destruct (Str.strip_prefix kw t) as [?u|] eqn:E;
             [erewrite star_greedy_all;
              [cbn [orb]; eexists; reflexivity
              |exact (all_strip_prefix _ _ _ E L)
              |now rewrite consumed_empty]|]
         end.
  cbn [orb]. reflexivity.
Qed.

Lemma app_cons_str (pre : string) (c : ascii) (s : string) :
  ((pre ++ String c "") ++ s)%string = (pre ++ String c s)%string.
Proof. now rewrite app_assoc_str. Qed.

(** The greedy first group gives back one character at a time; the first
    place where the rest of the pattern matches is the rightmost split.
    [pre] is the text before [s] that the group has already swallowed. *)
Lemma star_line1_2 (s pre : string) :
  single_line s = true ->
  match rsplit_unit s with
  | Some (l, r) =>
      exists k3,
        Re.star_greedy Re.dot s
          (fun t => Re.exec (Re.Cat (Re.Lit " ") re_unit_part) t
                            [(1, Re.consumed (pre ++ s) t)]
                            (fun _ g => Some g))
        = Some [(2, r); (3, k3); (1, (pre ++ l)%string)]
  | None =>
      Re.star_greedy Re.dot s
        (fun t => Re.exec (Re.Cat (Re.Lit " ") re_unit_part) t
                          [(1, Re.consumed (pre ++ s) t)]
                          (fun _ g => Some g))
      = None
  end.
Proof.
  revert pre. induction s as [|c s IH]; intros pre L.
  - reflexivity.
  - unfold single_line in L. simpl in L. apply andb_true_iff in L.
    destruct L as [Lc Ls].
    specialize (IH (pre ++ String c "")%string Ls).
    rewrite app_cons_str in IH.
    cbn [Re.star_greedy rsplit_unit]. rewrite Lc.
    destruct (rsplit_unit s) as [[l r]|].
    + destruct IH as [k3 IH]. exists k3.
      rewrite IH. now rewrite app_cons_str.
    + rewrite IH. cbn [Re.exec Str.strip_prefix].
      destruct (Ascii.eqb_spec c " ") as [->|N].
      * rewrite Ascii.eqb_refl. cbn [andb].
        rewrite (consumed_app pre (String " " s)).
        pose proof (exec_unit_part s [(1, pre)] Ls) as U.
        destruct (starts_with_unit_keyword s).
        -- destruct U as [k3 U]. exists k3. rewrite app_empty_r. exact U.
        -- exact U.
      * destruct (Ascii.eqb_spec " " c) as [E|_]; [congruence | reflexivity].
Qed.

Lemma rsplit_unit_tail (c : ascii) (s : string) :
  rsplit_unit (String c s) = None -> rsplit_unit s = None.
Proof. simpl. now destruct (rsplit_unit s) as [[l r]|]. Qed.

(** On one line, [re.search] with the pattern of [parse_address] finds the
    rightmost split, or nothing. *)
Lemma search_line1_2 (s : string) :
  single_line s = true ->
  match rsplit_unit s with
  | Some (l, r) =>
      exists k3, Re.search re_line1_2 s = Some [(2, r); (3, k3); (1, l)]
  | None => Re.search re_line1_2 s = None
  end.
Proof.
  intros L.
  assert (M : match rsplit_unit s with
              | Some (l, r) =>
                  exists k3, Re.rmatch re_line1_2 s = Some [(2, r); (3, k3); (1, l)]
              | None => Re.rmatch re_line1_2 s = None
              end).
  { exact (star_line1_2 s "" L). }
  destruct (rsplit_unit s) as [[l r]|] eqn:R.
  - destruct M as [k3 M]. exists k3.
    destruct s; cbn [Re.search]; now rewrite M.
  - clear M. induction s as [|c s IH].
    + reflexivity.
    + pose proof (star_line1_2 (String c s) "" L) as M. rewrite R in M.
      change (Re.rmatch re_line1_2 (String c s) = None) in M.
      cbn [Re.search]. rewrite M. apply IH.
      * unfold single_line in *. simpl in L. now apply andb_true_iff in L.
      * now apply rsplit_unit_tail in R.
Qed.

Lemma rsplit_unit_sound (s l r : string) :
  rsplit_unit s = Some (l, r) ->
  s = (l ++ " " ++ r)%string /\ starts_with_unit_keyword r = true.
Proof.
  revert l. induction s as [|c s IH]; intros l; simpl; [discriminate|].
  destruct (rsplit_unit s) as [[l0 r0]|].
  - intros E. inversion E; subst. destruct (IH l0 eq_refl) as [-> K].
    split; [reflexivity | exact K].
  - destruct (Ascii.eqb_spec c " ") as [->|N]; simpl; [|discriminate].
    destruct (starts_with_unit_keyword s) eqn:K; [|discriminate].
    intros E. inversion E; subst. split; [reflexivity | exact K].
Qed.

Lemma rsplit_unit_complete (l r : string) :
  starts_with_unit_keyword r = true ->
  rsplit_unit (l ++ " " ++ r) <> None.
Proof.
  intros K. induction l as [|c l IH]; simpl.
  - destruct (rsplit_unit r) as [[l0 r0]|]; [discriminate|].
    rewrite K. discriminate.
  - simpl in IH.
    destruct (rsplit_unit (l ++ String " " r)) as [[l0 r0]|];
      [discriminate | now elim IH].
Qed.

Lemma rsplit_unit_rightmost (s l r : string) :
  rsplit_unit s = Some (l, r) ->
  forall l' r', s = (l' ++ " " ++ r')%string ->
                starts_with_unit_keyword r' = true ->
                String.length l' <= String.length l.
Proof.
  revert l. induction s as [|c s IH]; intros l; simpl; [discriminate|].
  destruct (rsplit_unit s) as [[l0 r0]|] eqn:R.
  - intros E l' r' S K. inversion E; subst l r0.
    destruct l' as [|c' l']; simpl; [lia|].
    simpl in S. inversion S; subst.
    specialize (IH l0 eq_refl l' r' eq_refl K). lia.
  - destruct (Ascii.eqb c " " && starts_with_unit_keyword s); [|discriminate].
    intros E l' r' S K. inversion E; subst l r.
    destruct l' as [|c' l']; simpl; [lia|].
    simpl in S. inversion S; subst.
    now elim (rsplit_unit_complete l' r' K).
Qed.

(** ** The pattern engine: what a successful match went through *)

Lemma star_greedy_Some {A : Type} (p : Re.charset) (s : string)
      (k : string -> option A) (a : A) :
  Re.star_greedy p s k = Some a -> exists t, k t = Some a.
Proof.
  induction s as [|c s IH]; simpl; [now exists ""|].
  destruct (p c); [|now exists (String c s)].
  destruct (Re.star_greedy p s k) as [b|]; [|now exists (String c s)].
  intros E. inversion E; subst. now apply IH.
Qed.

Lemma star_lazy_Some {A : Type} (p : Re.charset) (s : string)
      (k : string -> option A) (a : A) :
  Re.star_lazy p s k = Some a -> exists t, k t = Some a.
Proof.
  induction s as [|c s IH]; simpl.
  - destruct (k "") as [b|] eqn:E; [|discriminate].
    intros H. inversion H; subst. now exists "".
  - destruct (k (String c s)) as [b|] eqn:E.
    + intros H. inversion H; subst. now exists (String c s).
    + destruct (p c); [apply IH | discriminate].
Qed.

Lemma search_Some (r : Re.regex) (s : string) (g : Re.groups) :
  Re.search r s = Some g -> exists t, Re.rmatch r t = Some g.
Proof.
  induction s as [|c s IH]; cbn [Re.search].
  - destruct (Re.rmatch r "") eqn:E; [|discriminate].
    intros H. inversion H; subst. now exists "".
  - destruct (Re.rmatch r (String c s)) eqn:E.
    + intros H. inversion H; subst. now exists (String c s).
    + exact IH.
Qed.

(** A match of the city/state/zip pattern has set its three groups. *)
Lemma search_citystatezip_groups (csz : string) (g : Re.groups) :
  Re.search re_citystatezip csz = Some g ->
  exists c st z, g = [(3, z); (2, st); (1, c)].
Proof.
  intros H. apply search_Some in H. destruct H as [t H].
  unfold Re.rmatch, re_citystatezip in H. cbn [Re.exec] in H.
  apply star_greedy_Some in H. destruct H as [t1 H].
  destruct (Str.strip_prefix ", " t1) as [t2|]; [|discriminate].
  destruct (Re.rep 2 Str.upper_letter t2) as [t3|]; [|discriminate].
  apply star_lazy_Some in H. destruct H as [t4 H].
  destruct (Re.rep 5 Str.digit t4) as [t5|]; [|discriminate].
  inversion H. eauto.
Qed.

(** What [parse_address] takes for [line1] and [line2] on one line. *)
Lemma parse_address_line1_2 (s csz : string) (a : Address) :
  single_line s = true -> parse_address s csz = Ok a ->
  rsplit_unit s = Some (line1 a, line2 a).
Proof.
  intros L P. pose proof (search_line1_2 s L) as M. unfold parse_address in P.
  destruct (rsplit_unit s) as [[l r]|].
  - destruct M as [k3 M]. rewrite M in P. cbn in P.
    destruct (Re.group_of (Re.search re_citystatezip csz) 1); [|discriminate].
    destruct (Re.group_of (Re.search re_citystatezip csz) 2); [|discriminate].
    destruct (Re.group_of (Re.search re_citystatezip csz) 3); [|discriminate].
    cbn in P. inversion P. reflexivity.
  - rewrite M in P. discriminate.
Qed.

(** C10: on a line, the split of [line1_2] is at the rightmost space that is
    followed by text beginning with a unit keyword (a prefix test, not a
    word test): what [parse_address] returns satisfies it, such a split
    exists whenever any space is followed by a keyword prefix, and the two
    inputs of the claim split as it says. *)
Theorem C10_split_at_rightmost_keyword_prefix :
  (forall s csz a,
      single_line s = true -> parse_address s csz = Ok a ->
      s = (line1 a ++ " " ++ line2 a)%string /\
      starts_with_unit_keyword (line2 a) = true /\
      forall l r, s = (l ++ " " ++ r)%string ->
                  starts_with_unit_keyword r = true ->
                  String.length l <= String.length (line1 a)) /\
  (forall l r csz,
      single_line (l ++ " " ++ r) = true ->
      starts_with_unit_keyword r = true ->
      Re.is_match (Re.search re_citystatezip csz) = true ->
      exists a, parse_address (l ++ " " ++ r) csz = Ok a) /\
  parse_address "123 STEVENS ST" "Springfield, IL 62704"
    = Ok (mkAddress "123" "STEVENS ST" "Springfield" "IL" "62704" None) /\
  parse_address "100 Main St APT 3 FL 2" "Springfield, IL 62704"
    = Ok (mkAddress "100 Main St APT 3" "FL 2" "Springfield" "IL" "62704" None).
Proof.
  split; [|split; [|split; reflexivity]].
  - intros s csz a L P. apply parse_address_line1_2 in P; [|exact L].
    destruct (@rsplit_unit_sound _ _ _ P) as [E K].
    repeat split; auto. exact (@rsplit_unit_rightmost _ _ _ P).
  - intros l r csz L K C.
    pose proof (search_line1_2 _ L) as M.
    pose proof (rsplit_unit_complete l r K) as N.
    destruct (rsplit_unit (l ++ " " ++ r)) as [[l1 r1]|]; [|now elim N].
    destruct M as [k3 M]. unfold parse_address. rewrite M.
    destruct (Re.search re_citystatezip csz) as [g|] eqn:S; [|discriminate].
    destruct (search_citystatezip_groups _ S) as (c & st & z & ->).
    cbn. eauto.
Qed.

(** C10 at the second input of the claim. *)
Lemma C10_split_witness :
  "100 Main St APT 3 FL 2"
  = (line1 (mkAddress "100 Main St APT 3" "FL 2" "Springfield" "IL" "62704" None)
     ++ " " ++
     line2 (mkAddress "100 Main St APT 3" "FL 2" "Springfield" "IL" "62704" None))%string /\
  starts_with_unit_keyword "FL 2" = true /\
  String.length "100 Main St" <= String.length "100 Main St APT 3".
Proof.
  destruct (proj1 C10_split_at_rightmost_keyword_prefix
              "100 Main St APT 3 FL 2" "Springfield, IL 62704"
              (mkAddress "100 Main St APT 3" "FL 2" "Springfield" "IL" "62704" None)
              eq_refl eq_refl) as (E & K & R).
  split; [exact E | split; [exact K |]].
  exact (R "100 Main St" "APT 3 FL 2" eq_refl eq_refl).
Defined.

(** ** The UPS extractor *)

(** [re.search] with a pattern that begins with a label matches at the
    first occurrence of the label when the rest of the pattern matches
    there. *)
Lemma search_after_label (label : string) (R : Re.regex) (s pre rest : string)
      (g : Re.groups) :
  partition label s = Some (pre, rest) ->
  Re.exec R rest [] (fun _ g' => Some g') = Some g ->
  Re.search (Re.Cat (Re.Lit label) R) s = Some g.
Proof.
  revert pre. induction s as [|c s IH]; intros pre P E.
  - cbn [partition] in P.
    destruct (Str.strip_prefix label "") as [t|] eqn:S; [|discriminate].
    inversion P; subst. cbn [Re.search]. unfold Re.rmatch. cbn [Re.exec].
    now rewrite S, E.
  - cbn [partition] in P. cbn [Re.search]. unfold Re.rmatch at 1.
    cbn [Re.exec].
    destruct (Str.strip_prefix label (String c s)) as [t|] eqn:S.
    + inversion P; subst. now rewrite E.
    + destruct (partition label s) as [[b a]|] eqn:Q; [|discriminate].
      inversion P; subst. now apply (IH b).
Qed.

(** A greedy star first tries to swallow a run of its class whole. *)
Lemma star_greedy_run {A : Type} (p : Re.charset) (a rest : string)
      (k : string -> option A) (x : A) :
  Str.all p a = true -> Re.star_greedy p rest k = Some x ->
  Re.star_greedy p (a ++ rest) k = Some x.
Proof.
  intros H K. induction a as [|c a IH]; simpl; [exact K|].
  simpl in H. apply andb_true_iff in H. destruct H as [Hc Ha].
  now rewrite Hc, (IH Ha).
Qed.

Lemma star_greedy_stop {A : Type} (p : Re.charset) (rest : string)
      (k : string -> option A) :
  match rest with EmptyString => true | String c _ => negb (p c) end = true ->
  Re.star_greedy p rest k = k rest.
Proof.
  destruct rest as [|c t]; simpl; [reflexivity|].
  intros H. apply negb_true_iff in H. now rewrite H.
Qed.

(** Before a continuation that always succeeds, a greedy star takes the
    longest run. *)
Lemma star_greedy_total {A : Type} (p : Re.charset) (s : string)
      (f : string -> A) :
  Re.star_greedy p s (fun t => Some (f t)) = Some (f (after_run p s)).
Proof.
  induction s as [|c s IH]; simpl; [reflexivity|].
  destruct (p c); [now rewrite IH | reflexivity].
Qed.

Lemma run_after_run (p : ascii -> bool) (s : string) :
  s = (run p s ++ after_run p s)%string.
Proof.
  induction s as [|c s IH]; simpl; [reflexivity|].
  destruct (p c); simpl; [now rewrite <- IH | reflexivity].
Qed.

(** Group 1 of the tracking-number pattern right after its label. *)
Lemma tracking_group (rest : string) :
  at_LF_or_CR rest = true ->
  Re.exec (Re.Group 1 (Re.Star (Re.any_but [Str.LF; Str.CR])))
          ("1Z123" ++ rest) [] (fun _ g => Some g)
  = Some [(1, "1Z123")].
Proof.
  intros H. cbn [Re.exec].
  apply star_greedy_run with (a := "1Z123"); [reflexivity|].
  rewrite star_greedy_stop.
  - now rewrite (consumed_app "1Z123" rest).
  - destruct rest as [|c t]; [reflexivity|].
    unfold Re.any_but, at_LF_or_CR in *. cbn [existsb].
    destruct (Ascii.eqb c Str.LF), (Ascii.eqb c Str.CR);
      simpl in *; congruence.
Qed.

Lemma run_dot_line2 (rest : string) :
  run Re.dot ("Springfield, IL 62704" ++ rest)
  = ("Springfield, IL 62704" ++ run Re.dot rest)%string.
Proof. reflexivity. Qed.

(** Group 1 of the delivery-location pattern right after its label: the
    two lines, the second up to the next line feed. *)
Lemma location_group (rest : string) :
  Re.exec (Re.Group 1 (Re.Cat (Re.Star (Re.any_but [Str.LF]))
                      (Re.Cat (Re.Lit (String Str.LF ""))
                              (Re.Star (Re.any_but [Str.LF])))))
          ("123 Main St APT 4" ++ String Str.LF ("Springfield, IL 62704" ++ rest))
          [] (fun _ g => Some g)
  = Some [(1, ("123 Main St APT 4" ++ String Str.LF
               ("Springfield, IL 62704" ++ run Re.dot rest))%string)].
Proof.
  cbn [Re.exec].
  apply star_greedy_run with (a := "123 Main St APT 4"); [reflexivity|].
  rewrite star_greedy_stop by reflexivity.
  cbn [Str.strip_prefix]. rewrite Ascii.eqb_refl.
  change (Re.any_but [Str.LF]) with Re.dot.
  refine (eq_trans
            (star_greedy_total Re.dot ("Springfield, IL 62704" ++ rest)
               (fun s3 => [(1, Re.consumed
                                 ("123 Main St APT 4" ++ String Str.LF
                                  ("Springfield, IL 62704" ++ rest)) s3)]
                          : Re.groups)) _).
  do 3 f_equal.
  rewrite (run_after_run Re.dot ("Springfield, IL 62704" ++ rest)) at 1.
  rewrite run_dot_line2.
  set (r := run Re.dot rest). set (t := after_run Re.dot _).
  change (Re.consumed (("123 Main St APT 4" ++ String Str.LF ("Springfield, IL 62704" ++ r)) ++ t) t
          = ("123 Main St APT 4" ++ String Str.LF ("Springfield, IL 62704" ++ r))%string).
  apply consumed_app.
Qed.

Lemma splitlines_two (rest : string) :
  at_line_break rest = true ->
  exists more,
    Str.splitlines ("123 Main St APT 4" ++ String Str.LF
                    ("Springfield, IL 62704" ++ run Re.dot rest))
    = "123 Main St APT 4" :: "Springfield, IL 62704" :: more.
Proof.
  intros H. unfold Str.splitlines.
  change (exists more,
             "123 Main St APT 4"
               :: Str.splitlines_from "Springfield, IL 62704" (run Re.dot rest)
             = "123 Main St APT 4" :: "Springfield, IL 62704" :: more).
  destruct rest as [|b t]; [now exists []|].
  simpl in H. cbn [run]. destruct (Re.dot b); [|now exists []].
  cbn [Str.splitlines_from]. rewrite H. eexists. reflexivity.
Qed.

(** C8: let the plain-text part of a message contain the two fragments of
    the scenario, each at the first occurrence of its label, the address
    fragment ending its line and the tracking fragment followed by a line
    feed, a carriage return or nothing. Then the UPS extractor returns the
    address and the tracking ID of the claim, the tracking ID classifies as
    UPS, and for a UPS sender the run loop assembles the purchase from
    them. *)
Theorem C8_ups_scenario (w : World) (message : Message)
        (body pre rest pre' rest' : string) :
  get_email_body_as_plaintext message = Ok body ->
  partition "Delivery Location:=C2=A0" body
  = Some (pre, ("123 Main St APT 4" ++ String Str.LF
                ("Springfield, IL 62704" ++ rest))%string) ->
  at_line_break rest = true ->
  partition "Tracking Number:=C2=A0" body = Some (pre', ("1Z123" ++ rest')%string) ->
  at_LF_or_CR rest' = true ->
  DeliveryServiceParser.parse_address w (Some DeliveryService.UPS) message
  = Ok (Some (mkAddress "123 Main St" "APT 4" "Springfield" "IL" "62704" None)) /\
  DeliveryServiceParser.parse_tracking_id w (Some DeliveryService.UPS) message
  = Ok (Some "1Z123") /\
  DeliveryService.from_number (Some "1Z123") = Ok (Some DeliveryService.UPS) /\
  (DeliveryServiceParser.parse_ds message = Ok (Some DeliveryService.UPS) ->
   forall e,
     extract w e message
     = Ok (mkPurchase e (Some "1Z123")
             (Some (mkAddress "123 Main St" "APT 4" "Springfield" "IL" "62704" None))
             (Some DeliveryService.UPS) None)).
Proof.
  intros B P1 H1 P2 H2.
  assert (A : DeliveryServiceParser.parse_address w (Some DeliveryService.UPS) message
              = Ok (Some (mkAddress "123 Main St" "APT 4" "Springfield" "IL" "62704" None))).
  { unfold DeliveryServiceParser.parse_address.
    cbn [DeliveryServiceParser.is_service DeliveryService.eqb].
    rewrite B. cbn [bind].
    unfold DeliveryServiceParser.re_delivery_location.
    rewrite (@search_after_label _ _ _ _ _ _ P1 (location_group rest)).
    cbn [Re.group_of Re.group Nat.eqb bind].
    destruct (splitlines_two rest H1) as [more ->].
    reflexivity. }
  assert (T : DeliveryServiceParser.parse_tracking_id w (Some DeliveryService.UPS) message
              = Ok (Some "1Z123")).
  { unfold DeliveryServiceParser.parse_tracking_id.
    cbn [DeliveryServiceParser.is_service DeliveryService.eqb].
    rewrite B. cbn [bind].
    unfold DeliveryServiceParser.re_tracking_number.
    rewrite (@search_after_label _ _ _ _ _ _ P2 (@tracking_group rest' H2)).
    reflexivity. }
  split; [exact A | split; [exact T | split; [reflexivity|]]].
  intros D e. unfold extract. rewrite D. cbn [bind]. rewrite A, T. reflexivity.
Qed.

(** C8 on the body of the scenario itself: the two fragments, one per
    line. *)
Lemma C8_scenario_witness :
  DeliveryServiceParser.parse_address Examples.mailbox
    (Some DeliveryService.UPS) Examples.ups_message
  = Ok (Some (mkAddress "123 Main St" "APT 4" "Springfield" "IL" "62704" None)) /\
  DeliveryServiceParser.parse_tracking_id Examples.mailbox
    (Some DeliveryService.UPS) Examples.ups_message
  = Ok (Some "1Z123") /\
  DeliveryService.from_number (Some "1Z123") = Ok (Some DeliveryService.UPS) /\
  (DeliveryServiceParser.parse_ds Examples.ups_message
   = Ok (Some DeliveryService.UPS) ->
   forall e,
     extract Examples.mailbox e Examples.ups_message
     = Ok (mkPurchase e (Some "1Z123")
             (Some (mkAddress "123 Main St" "APT 4" "Springfield" "IL" "62704" None))
             (Some DeliveryService.UPS) None)).
Proof.
  exact (@C8_ups_scenario Examples.mailbox Examples.ups_message
           Examples.ups_body
           ""
           (Examples.nl ++ "Tracking Number:=C2=A01Z123")
           ("Delivery Location:=C2=A0123 Main St APT 4" ++ Examples.nl ++
            "Springfield, IL 62704" ++ Examples.nl)
           ""
           eq_refl eq_refl eq_refl eq_refl eq_refl).
Defined.

(** The same fragments inside a longer body with CR LF line ends, run
    through the extractor as it is. *)
Lemma ups_scenario_in_context (w : World) (hto hfrom hdate hsubject : option string)
      (others : list string) :
  let message :=
    mkMessage hto hfrom hdate hsubject (Examples.ups_body_in_context :: others) in
  DeliveryServiceParser.parse_address w (Some DeliveryService.UPS) message
  = Ok (Some (mkAddress "123 Main St" "APT 4" "Springfield" "IL" "62704" None)) /\
  DeliveryServiceParser.parse_tracking_id w (Some DeliveryService.UPS) message
  = Ok (Some "1Z123").
Proof. split; reflexivity. Qed.

(** ** Membership tests *)



Lemma py_in_Email_true (e : Email) (errors : list Email) :
  py_in (PyEmail e) (map PyEmail errors) = true ->
  exists e', In e' errors /\ Id e' = Id e.
Proof.
  induction errors as [|d errors IH]; simpl; [discriminate|].
  intros H. apply orb_true_iff in H. destruct H as [H|H].
  - exists d. split; [now left|]. unfold Email_eq in H.
    apply String.eqb_eq in H. congruence.
  - destruct (IH H) as (e' & I & E). exists e'. auto.
Qed.

(** ** One iteration of the loop *)

Lemma new_Purchase_email (e : Email) (t : option string) (a : option Address)
      (p : Purchase) :
  new_Purchase e t a = Ok p -> email p = e.
Proof.
  unfold new_Purchase. destruct (DeliveryService.from_number t); [|discriminate].
  simpl. destruct (BuyClub.from_address a); [|discriminate].
  simpl. intros H. inversion H. reflexivity.
Qed.

Lemma extract_email (w : World) (e : Email) (message : Message) (p : Purchase) :
  extract w e message = Ok p -> email p = e.
Proof.
  unfold extract.
  destruct (DeliveryServiceParser.parse_ds message) as [ds|]; [|discriminate].
  simpl.
  destruct (DeliveryServiceParser.parse_address w ds message) as [a|];
    [|discriminate].
  simpl.
  destruct (DeliveryServiceParser.parse_tracking_id w ds message) as [t|];
    [|discriminate].
  simpl. apply new_Purchase_email.
Qed.

(** An iteration leaves the state alone, or appends one purchase that the
    loaded success ledger does not hold, or appends one error entry that the
    loaded error ledger does not hold; the entry carries the message's id. *)
Lemma process_message_cases (w : World) (data : list Purchase)
      (errors : list Email) (st : Run) (x : MsgRef) :
  process_message w data errors st x = st \/
  (exists p,
      py_in (PyPurchase p) (map PyPurchase data) = false /\
      Id (email p) = msg_id x /\
      process_message w data errors st x
      = note_tracking_number p (append_to_data p st)) \/
  (exists e,
      py_in (PyEmail e) (map PyEmail errors) = false /\
      Id e = msg_id x /\
      process_message w data errors st x = append_to_errors e st).
Proof.
  unfold process_message.
  destruct (GetMimeMessage w (msg_id x)) as [message|]; [|now left].
  set (e := mkEmail _ _ _ _ _).
  destruct (extract w e message) as [p|] eqn:X.
  - destruct (py_in (PyPurchase p) (map PyPurchase data)) eqn:I; simpl;
      [now left|].
    right; left. exists p. apply extract_email in X.
    repeat split; auto. now rewrite X.
  - destruct (py_in (PyEmail e) (map PyEmail errors)) eqn:I; simpl;
      [now left|].
    right; right. exists e. auto.
Qed.

(** ** The loop *)


(** [main] returns as soon as the mailbox has listed its messages. *)
Lemma main_Ok (w : World) (argv1 : option Z) (st st' : Run) :
  main w argv1 st = Ok st' ->
  exists fetched,
    get_messages w (get_message_count argv1) = Ok (Some fetched) /\
    st' = fold_left
            (process_message w (load_data st) (load_errors st))
            (filtered_errors_handled (load_errors st)
               (new_messages (map (fun x => Id (email x)) (load_data st)) fetched))
            (mkRun (data_file st) (error_file st) []).
Proof.
  unfold main.
  destruct (get_messages w (get_message_count argv1)) as [[fetched|]|];
    simpl; try discriminate.
  intros H. inversion H. now exists fetched.
Qed.



(** ** Two successive runs *)




(** ** Senders without an extractor *)

Lemma unsupported_no_extraction (w : World) (ds : option DeliveryService.t)
      (message : Message) :
  unsupported ds ->
  DeliveryServiceParser.parse_address w ds message = Ok None /\
  DeliveryServiceParser.parse_tracking_id w ds message = Ok None.
Proof. intros [->|[->| ->]]; split; reflexivity. Qed.

Lemma unsupported_extract_raises (w : World) (e : Email) (message : Message)
      (ds : option DeliveryService.t) :
  DeliveryServiceParser.parse_ds message = Ok ds -> unsupported ds ->
  extract w e message = Raise TypeError.
Proof.
  intros D U. unfold extract. rewrite D. simpl.
  destruct (unsupported_no_extraction w message U) as [-> ->]. reflexivity.
Qed.

Lemma process_message_keeps_errors (w : World) (data : list Purchase)
      (errors : list Email) (st : Run) (x : MsgRef) (l : line Email) :
  In l (lines_of (error_file st)) ->
  In l (lines_of (error_file (process_message w data errors st x))).
Proof.
  intros H.
  destruct (process_message_cases w data errors st x)
    as [S|[(p & _ & _ & S)|(e & _ & _ & S)]]; rewrite S; simpl; auto.
  apply in_or_app. now left.
Qed.

Lemma loop_keeps_errors (w : World) (data : list Purchase)
      (errors : list Email) (msgs : list MsgRef) (st : Run) (l : line Email) :
  In l (lines_of (error_file st)) ->
  In l (lines_of (error_file
                    (fold_left (process_message w data errors) msgs st))).
Proof.
  revert st. induction msgs as [|x msgs IH]; intros st H; simpl; [exact H|].
  apply IH. now apply process_message_keeps_errors.
Qed.

(** After the iteration for a fetched message whose sender has no
    extractor, the error file holds an entry with the message's id. *)
Lemma process_message_unsupported (w : World) (data : list Purchase)
      (errors : list Email) (st : Run) (x : MsgRef) (message : Message)
      (ds : option DeliveryService.t) :
  (forall e, In e errors -> In (Enc e) (lines_of (error_file st))) ->
  GetMimeMessage w (msg_id x) = Ok message ->
  DeliveryServiceParser.parse_ds message = Ok ds -> unsupported ds ->
  exists e, Id e = msg_id x /\
            In (Enc e) (lines_of (error_file (process_message w data errors st x))).
Proof.
  intros F G D U. unfold process_message. rewrite G.
  set (e := mkEmail _ _ _ _ _).
  rewrite (unsupported_extract_raises w e message D U).
  destruct (py_in (PyEmail e) (map PyEmail errors)) eqn:I; simpl.
  - destruct (py_in_Email_true _ _ I) as (e' & J & K).
    exists e'. split; [exact K | now apply F].
  - exists e. split; [reflexivity|]. apply in_or_app. right. now left.
Qed.

Lemma loop_unsupported (w : World) (data : list Purchase)
      (errors : list Email) (msgs : list MsgRef) (st : Run) (x : MsgRef)
      (message : Message) (ds : option DeliveryService.t) :
  (forall e, In e errors -> In (Enc e) (lines_of (error_file st))) ->
  In x msgs ->
  GetMimeMessage w (msg_id x) = Ok message ->
  DeliveryServiceParser.parse_ds message = Ok ds -> unsupported ds ->
  exists e, Id e = msg_id x /\
            In (Enc e)
               (lines_of (error_file
                            (fold_left (process_message w data errors) msgs st))).
Proof.
  revert st. induction msgs as [|y msgs IH]; intros st F I G D U; [easy|].
  simpl. destruct I as [->|I].
  - destruct (@process_message_unsupported w data errors st x message ds F G D U)
      as (e & K & J).
    exists e. split; [exact K | now apply loop_keeps_errors].
  - apply IH; auto. intros e J. apply process_message_keeps_errors. now apply F.
Qed.

(** C9: let the mailbox list [fetched], and let [x] be one of these
    messages that the success ledger does not hold, whose content the
    mailbox returns and whose sender classifies as unknown, FedEx or USPS.
    Then neither extractor looks at the message (both return [None]), the
    run completes, and the error ledger it leaves holds an entry with the
    id of [x]. *)
Theorem C9_unsupported_sender_recorded
        (w : World) (argv1 : option Z) (st : Run) (fetched : list MsgRef)
        (x : MsgRef) (message : Message) (ds : option DeliveryService.t) :
  get_messages w (get_message_count argv1) = Ok (Some fetched) ->
  In x fetched ->
  ~ In (msg_id x) (map (fun p => Id (email p)) (load_data st)) ->
  GetMimeMessage w (msg_id x) = Ok message ->
  DeliveryServiceParser.parse_ds message = Ok ds ->
  unsupported ds ->
  DeliveryServiceParser.parse_address w ds message = Ok None /\
  DeliveryServiceParser.parse_tracking_id w ds message = Ok None /\
  exists st',
    main w argv1 st = Ok st' /\
    exists e, Id e = msg_id x /\ In (Enc e) (lines_of (error_file st')).
Proof.
  intros L I N G D U.
  destruct (unsupported_no_extraction w message U) as [A T].
  split; [exact A | split; [exact T|]].
  unfold main. rewrite L. simpl. eexists. split; [reflexivity|].
  apply (@loop_unsupported w _ _ _ _ x message ds); auto.
  - intros e J. simpl. now apply load_In_lines.
  - rewrite filtered_errors_handled_keeps_all.
    apply new_messages_not_processed. auto.
Qed.

(** C9 on the example mailbox: the FedEx notice [m2] of a first run. *)
Lemma C9_fedex_witness :
  DeliveryServiceParser.parse_address Examples.mailbox
    (Some DeliveryService.FedEx) Examples.fedex_message = Ok None /\
  DeliveryServiceParser.parse_tracking_id Examples.mailbox
    (Some DeliveryService.FedEx) Examples.fedex_message = Ok None /\
  exists st',
    main Examples.mailbox None Examples.fresh = Ok st' /\
    exists e, Id e = msg_id Examples.m2 /\ In (Enc e) (lines_of (error_file st')).
Proof.
  refine (@C9_unsupported_sender_recorded
            Examples.mailbox None Examples.fresh
            [Examples.m1; Examples.m2] Examples.m2
            Examples.fedex_message (Some DeliveryService.FedEx)
            eq_refl _ _ eq_refl eq_refl _).
  - simpl. right. left. reflexivity.
  - simpl. intros [].
  - right. left. reflexivity.
Defined.

(** * Further properties of the code *)

(** ** Writing and reloading a ledger file *)

Lemma forallb_well_formed_Enc {A : Type} (items : list A) :
  forallb well_formed (map Enc items) = true.
Proof. induction items; simpl; auto. Qed.


(** X2: [save] then [load] gives back the saved list, whatever the file held
    before, and a record appended after a [save] is reloaded last. *)
Theorem load_save {A : Type} (itemlist : list A) (f : file A) (item : A) :
  load (save itemlist f) = itemlist /\
  load (append item (save itemlist f)) = itemlist ++ [item].
Proof.
  assert (S : load (save itemlist f) = itemlist).
  { unfold save. rewrite load_intact.
    - simpl. apply recoverable_Enc.
    - apply forallb_well_formed_Enc. }
  split; [exact S|].
  unfold append, save. rewrite load_intact.
  - simpl. now rewrite recoverable_app, recoverable_Enc.
  - unfold intact. simpl. now rewrite forallb_app, forallb_well_formed_Enc.
Qed.

(** X4: constructing a [Purchase] succeeds exactly when a tracking number
    and an address are given, and then carries the two classifiers'
    results; without a tracking number it raises [TypeError], with a
    tracking number but no address [AttributeError]. *)
Theorem new_Purchase_cases (e : Email) (t : option string) (a : option Address) :
  match t, a with
  | Some ts, Some ad =>
      exists service club,
        DeliveryService.from_number (Some ts) = Ok service /\
        BuyClub.from_address (Some ad) = Ok club /\
        new_Purchase e t a = Ok (mkPurchase e (Some ts) (Some ad) service club)
  | Some _, None => new_Purchase e t a = Raise AttributeError
  | None, _ => new_Purchase e t a = Raise TypeError
  end.
Proof.
  destruct t as [ts|]; [|reflexivity].
  destruct a as [ad|]; [|reflexivity].
  unfold new_Purchase.
  destruct (DeliveryService.from_number (Some ts)) as [service|] eqn:F;
    [|discriminate].
  destruct (BuyClub.from_address (Some ad)) as [club|] eqn:B; [|discriminate].
  exists service, club. auto.
Qed.

(** ** Case *)

Lemma upper_lower_char (c : ascii) :
  Str.upper_char (Str.lower_char c) = Str.upper_char c.
Proof. destruct c as [[] [] [] [] [] [] [] []]; reflexivity. Qed.

Lemma lower_upper_char (c : ascii) :
  Str.lower_char (Str.upper_char c) = Str.lower_char c.
Proof. destruct c as [[] [] [] [] [] [] [] []]; reflexivity. Qed.

Lemma upper_lower (s : string) : Str.upper (Str.lower s) = Str.upper s.
Proof.
  unfold Str.upper, Str.lower.
  induction s as [|c s IH]; simpl; [reflexivity|].
  now rewrite upper_lower_char, IH.
Qed.

Lemma lower_upper (s : string) : Str.lower (Str.upper s) = Str.lower s.
Proof.
  unfold Str.upper, Str.lower.
  induction s as [|c s IH]; simpl; [reflexivity|].
  now rewrite lower_upper_char, IH.
Qed.

(** X5: the buying club depends on [line1] only, and not on the case of its
    letters. *)
Theorem from_address_case_insensitive (a b : Address) :
  Str.lower (line1 a) = Str.lower (line1 b) ->
  BuyClub.from_address (Some a) = BuyClub.from_address (Some b).
Proof.
  intros E. unfold BuyClub.from_address.
  now rewrite <- (upper_lower (line1 a)), <- (upper_lower (line1 b)), E.
Qed.

(** X6: [parse_ds] raises [AttributeError] exactly when the message has no
    [From] header; otherwise it returns, and never returns USPS. *)
Theorem parse_ds_cases (message : Message) :
  match header_From message with
  | None => DeliveryServiceParser.parse_ds message = Raise AttributeError
  | Some _ =>
      exists ds, DeliveryServiceParser.parse_ds message = Ok ds /\
                 ds <> Some DeliveryService.USPS
  end.
Proof.
  unfold DeliveryServiceParser.parse_ds.
  destruct (header_From message) as [from|]; [|reflexivity].
  destruct (Str.contains "ups.com" (Str.lower from));
    [eexists; split; [reflexivity | discriminate]|].
  destruct (Str.contains "fedex.com" (Str.lower from));
    [eexists; split; [reflexivity | discriminate]|].
  destruct (Str.contains "amazon.com" (Str.lower from));
    eexists; split; try reflexivity; discriminate.
Qed.

(** X7: the sender classification does not depend on the case of the
    letters of the [From] header. *)
Theorem parse_ds_case_insensitive (m1 m2 : Message) (f1 f2 : string) :
  header_From m1 = Some f1 -> header_From m2 = Some f2 ->
  Str.upper f1 = Str.upper f2 ->
  DeliveryServiceParser.parse_ds m1 = DeliveryServiceParser.parse_ds m2.
Proof.
  intros H1 H2 E. unfold DeliveryServiceParser.parse_ds. rewrite H1, H2.
  now rewrite <- (lower_upper f1), <- (lower_upper f2), E.
Qed.

(** X9: when the first response of the mailbox has no ['messages'] key (what
    the Gmail API answers when nothing matches), [main] ends with
    [TypeError] instead of completing an empty run. *)
Theorem main_empty_mailbox (w : World) (argv1 : option Z) (st : Run)
        (token : page_token) :
  gmail_list w (get_message_count argv1) = Response None token ->
  main w argv1 st = Raise TypeError.
Proof.
  intros L. unfold main, get_messages. rewrite L.
  destruct token as [|next]; reflexivity.
Qed.


(** ** Paging *)

Lemma firstn_S_last {A : Type} (j : nat) (l : list A) :
  (j < List.length l)%nat ->
  exists x, In x l /\ firstn (S j) l = firstn j l ++ [x].
Proof.
  revert l. induction j as [|j IH]; intros [|a l] L; simpl in L; try lia.
  - exists a. split; [now left|reflexivity].
  - destruct (IH l) as (x & I & E); [lia|].
    exists x. split; [now right|].
    change (firstn (S (S j)) (a :: l)) with (a :: firstn (S j) l).
    now rewrite E.
Qed.

(** The loop returns the list it was given followed by the first [k] later
    pages, where the list before the last of them was still short of the
    cap, and where the loop went on for as long as the list was short and a
    page was left. *)
Lemma get_messages_pages_exact (n : Z) (token : page_token) :
  forall ms l,
    get_messages_pages n (Some ms) token = Ok (Some l) ->
    exists k,
      (k <= List.length (later_pages token))%nat /\
      l = ms ++ concat (firstn k (later_pages token)) /\
      (k = 0%nat \/
       (Z.of_nat (List.length
                    (ms ++ concat (firstn (k - 1) (later_pages token))))
        < n)%Z) /\
      ((n <= Z.of_nat (List.length l))%Z \/
       k = List.length (later_pages token)).
Proof.
  induction token as [e|page token IH| |next IH]
    using page_token_response_ind
    with (P := fun r =>
                 match r with
                 | Failed _ => True
                 | Response _ token =>
                     forall ms l,
                       get_messages_pages n (Some ms) token = Ok (Some l) ->
                       exists k,
                         (k <= List.length (later_pages token))%nat /\
                         l = ms ++ concat (firstn k (later_pages token)) /\
                         (k = 0%nat \/
                          (Z.of_nat
                             (List.length
                                (ms ++ concat (firstn (k - 1)
                                                      (later_pages token))))
                           < n)%Z) /\
                         ((n <= Z.of_nat (List.length l))%Z \/
                          k = List.length (later_pages token))
                 end).
  - exact I.
  - exact IH.
  - intros ms l H. simpl in H. inversion H. exists 0%nat. simpl.
    rewrite app_nil_r. auto.
  - intros ms l H. cbn [get_messages_pages] in H.
    destruct (Z.of_nat (List.length ms) <? n)%Z eqn:C.
    + apply Z.ltb_lt in C.
      destruct next as [e|page token]; [discriminate|].
      destruct page as [p|]; [|discriminate].
      destruct (IH _ _ H) as (k & K & E & B & T).
      cbn [later_pages pages_of_response].
      exists (S k). split; [simpl; lia|]. split; [|split].
      * rewrite E. cbn [firstn concat]. now rewrite app_assoc.
      * right. replace (S k - 1)%nat with k by lia.
        destruct k as [|j].
        -- simpl. now rewrite app_nil_r.
        -- destruct B as [B|B]; [discriminate|].
           replace (S j - 1)%nat with j in B by lia.
           cbn [firstn concat]. now rewrite app_assoc.
      * destruct T as [T|T]; [now left|right]. simpl. now rewrite T.
    + apply Z.ltb_ge in C. inversion H; subst. exists 0%nat. simpl.
      rewrite app_nil_r. repeat split; auto. lia.
Qed.

(** X8: [get_messages] returns the first page alone when it has no token or
    already holds [max_results] messages. In every case the result is the
    first page followed by the first [k] of the later pages, whole and in
    order, where the list before the last of them was shorter than
    [max_results] and where paging stopped only at the cap or at the last
    page. So when no later page has more than [m] messages, the result is
    the first page or has fewer than [max_results + m] messages: it exceeds
    the cap by less than one page. *)
Theorem get_messages_overshoot (w : World) (n : Z) (first : list MsgRef)
        (token : page_token) :
  gmail_list w n = Response (Some first) token ->
  (token = NoToken \/ (n <= Z.of_nat (List.length first))%Z ->
   get_messages w n = Ok (Some first)) /\
  (forall l,
      get_messages w n = Ok (Some l) ->
      exists k,
        (k <= List.length (later_pages token))%nat /\
        l = first ++ concat (firstn k (later_pages token)) /\
        (k = 0%nat \/
         (Z.of_nat (List.length
                      (first ++ concat (firstn (k - 1) (later_pages token))))
          < n)%Z) /\
        ((n <= Z.of_nat (List.length l))%Z \/
         k = List.length (later_pages token))) /\
  (forall l m,
      get_messages w n = Ok (Some l) ->
      (forall page, In page (later_pages token) ->
                    (List.length page <= m)%nat) ->
      l = first \/ (Z.of_nat (List.length l) < n + Z.of_nat m)%Z).
Proof.
  intros L. unfold get_messages. rewrite L. split; [|split].
  - intros [->|C]; [reflexivity|].
    destruct token as [|next]; [reflexivity|]. cbn [get_messages_pages].
    apply Z.ltb_ge in C. now rewrite C.
  - apply get_messages_pages_exact.
  - intros l m H B.
    destruct (get_messages_pages_exact _ _ _ H) as (k & K & -> & C & _).
    destruct k as [|j]; [left; simpl; now rewrite app_nil_r|right].
    destruct C as [C|C]; [discriminate|].
    replace (S j - 1)%nat with j in C by lia.
    destruct (@firstn_S_last _ j (later_pages token)) as (x & I & E); [lia|].
    rewrite E, concat_app, app_assoc, List.length_app. simpl.
    rewrite app_nil_r. specialize (B x I). lia.
Qed.

(** ** The loop, in detail *)

(** What one iteration does, by what the mailbox and the extractors did. *)
Lemma process_message_outcome (w : World) (data : list Purchase)
      (errors : list Email) (st : Run) (x : MsgRef) :
  match GetMimeMessage w (msg_id x) with
  | Raise _ => process_message w data errors st x = st
  | Ok message =>
      match extract w (envelope x message) message with
      | Ok p =>
          process_message w data errors st x
          = if py_in (PyPurchase p) (map PyPurchase data) then st
            else note_tracking_number p (append_to_data p st)
      | Raise _ =>
          process_message w data errors st x
          = if py_in (PyEmail (envelope x message)) (map PyEmail errors) then st
            else append_to_errors (envelope x message) st
      end
  end.
Proof.
  unfold process_message, envelope.
  destruct (GetMimeMessage w (msg_id x)) as [message|]; [|reflexivity].
  destruct (extract w _ message) as [p|].
  - now destruct (py_in (PyPurchase p) (map PyPurchase data)).
  - now destruct (py_in (PyEmail _) (map PyEmail errors)).
Qed.


Lemma filed_from_cons w data x msgs p :
  filed_from w data msgs p -> filed_from w data (x :: msgs) p.
Proof.
  intros (y & m & I & H). exists y, m. split; [now right | exact H].
Qed.

Lemma failed_from_cons w errors x msgs e :
  failed_from w errors msgs e -> failed_from w errors (x :: msgs) e.
Proof.
  intros (y & m & err & I & H). exists y, m, err. split; [now right | exact H].
Qed.

Lemma tracking_numbers_app (ps qs : list Purchase) :
  tracking_numbers (ps ++ qs) = tracking_numbers ps ++ tracking_numbers qs.
Proof. unfold tracking_numbers. apply flat_map_app. Qed.

Lemma loop_ledger (w : World) (data : list Purchase) (errors : list Email)
      (msgs : list MsgRef) (st : Run) :
  exists ps es,
    let st' := fold_left (process_message w data errors) msgs st in
    lines_of (data_file st') = lines_of (data_file st) ++ map Enc ps /\
    lines_of (error_file st') = lines_of (error_file st) ++ map Enc es /\
    newtrackingids st' = newtrackingids st ++ tracking_numbers ps /\
    Forall (filed_from w data msgs) ps /\
    Forall (failed_from w errors msgs) es.
Proof.
  revert st. induction msgs as [|x msgs IH]; intros st.
  - exists [], []. simpl. rewrite !app_nil_r. auto.
  - destruct (IH (process_message w data errors st x))
      as (ps & es & D & E & T & P & Q).
    cbn zeta in D, E, T.
    apply (Forall_impl _ (@filed_from_cons w data x msgs)) in P.
    apply (Forall_impl _ (@failed_from_cons w errors x msgs)) in Q.
    pose proof (process_message_outcome w data errors st x) as O.
    cbn zeta. cbn [fold_left].
    destruct (GetMimeMessage w (msg_id x)) as [message|] eqn:G.
    + destruct (extract w (envelope x message) message) as [p|err] eqn:X.
      * destruct (py_in (PyPurchase p) (map PyPurchase data)) eqn:I;
          rewrite O in D, E, T |- *.
        -- exists ps, es. auto.
        -- exists (p :: ps), es. simpl in D, E, T.
           rewrite <- app_assoc in D, T.
           refine (conj D (conj E (conj _ (conj _ Q)))).
           ++ rewrite T. unfold tracking_numbers at 2. simpl.
              fold (tracking_numbers ps).
              now destruct (tracking_number p).
           ++ constructor; [|exact P].
              exists x, message. repeat split; auto. now left.
      * destruct (py_in (PyEmail (envelope x message)) (map PyEmail errors))
          eqn:I; rewrite O in D, E, T |- *.
        -- exists ps, es. auto.
        -- exists ps, (envelope x message :: es). simpl in D, E, T.
           rewrite <- app_assoc in E.
           refine (conj D (conj E (conj T (conj P _)))).
           constructor; [|exact Q].
           exists x, message, err. repeat split; auto. now left.
    + rewrite O in D, E, T |- *. exists ps, es. auto.
Qed.

(** ** What the extractors hand to the assembler *)

Lemma unsupported_dec (ds : option DeliveryService.t) :
  ds = Some DeliveryService.UPS \/ ds = Some DeliveryService.Amazon \/
  unsupported ds.
Proof. unfold unsupported. destruct ds as [[]|]; auto. Qed.

Lemma new_Purchase_Ok (e : Email) (t : option string) (a : option Address)
      (p : Purchase) :
  new_Purchase e t a = Ok p ->
  exists ts ad,
    t = Some ts /\ a = Some ad /\
    tracking_number p = Some ts /\ address p = Some ad /\
    DeliveryService.from_number (Some ts) = Ok (shipping_service p) /\
    BuyClub.from_address (Some ad) = Ok (buying_club p).
Proof.
  unfold new_Purchase. destruct t as [ts|]; [|discriminate].
  destruct (DeliveryService.from_number (Some ts)) as [sv|] eqn:F;
    [|discriminate].
  cbn [bind]. destruct a as [ad|]; [|discriminate].
  destruct (BuyClub.from_address (Some ad)) as [cl|] eqn:B; [|discriminate].
  cbn [bind]. intros H. inversion H; subst. exists ts, ad.
  simpl. repeat split; auto.
Qed.

(** X13: when classification, extraction and assembly succeed, the sender
    was classified UPS or Amazon, the purchase carries the given email, a
    tracking number and an address, and its carrier and club are the
    classifiers' results on them. *)
Theorem extract_Ok (w : World) (e : Email) (message : Message) (p : Purchase) :
  extract w e message = Ok p ->
  (DeliveryServiceParser.parse_ds message = Ok (Some DeliveryService.UPS) \/
   DeliveryServiceParser.parse_ds message = Ok (Some DeliveryService.Amazon)) /\
  email p = e /\
  exists t a,
    tracking_number p = Some t /\ address p = Some a /\
    DeliveryService.from_number (Some t) = Ok (shipping_service p) /\
    BuyClub.from_address (Some a) = Ok (buying_club p).
Proof.
  intros X. pose proof (extract_email _ _ _ X) as E.
  destruct (DeliveryServiceParser.parse_ds message) as [ds|] eqn:D;
    [|unfold extract in X; rewrite D in X; discriminate].
  destruct (unsupported_dec ds) as [->|[->|U]].
  - split; [now left|]. split; [exact E|].
    unfold extract in X. rewrite D in X. cbn [bind] in X.
    destruct (DeliveryServiceParser.parse_address w _ message) as [a|];
      [|discriminate].
    destruct (DeliveryServiceParser.parse_tracking_id w _ message) as [t|];
      [|discriminate].
    cbn [bind] in X.
    destruct (new_Purchase_Ok _ _ _ X) as (ts & ad & _ & _ & H).
    exists ts, ad. exact H.
  - split; [now right|]. split; [exact E|].
    unfold extract in X. rewrite D in X. cbn [bind] in X.
    destruct (DeliveryServiceParser.parse_address w _ message) as [a|];
      [|discriminate].
    destruct (DeliveryServiceParser.parse_tracking_id w _ message) as [t|];
      [|discriminate].
    cbn [bind] in X.
    destruct (new_Purchase_Ok _ _ _ X) as (ts & ad & _ & _ & H).
    exists ts, ad. exact H.
  - rewrite (unsupported_extract_raises w e message D U) in X.
    discriminate.
Qed.

Lemma extract_tracking (w : World) (e : Email) (message : Message)
      (p : Purchase) :
  extract w e message = Ok p -> exists t, tracking_number p = Some t.
Proof.
  unfold extract.
  destruct (DeliveryServiceParser.parse_ds message) as [ds|]; [|discriminate].
  cbn [bind].
  destruct (DeliveryServiceParser.parse_address w ds message) as [a|];
    [|discriminate].
  cbn [bind].
  destruct (DeliveryServiceParser.parse_tracking_id w ds message) as [t|];
    [|discriminate].
  cbn [bind]. intros N.
  destruct (new_Purchase_Ok _ _ _ N) as (ts & ad & _ & _ & T & _).
  now exists ts.
Qed.

Lemma tracking_numbers_Some (ps : list Purchase) :
  Forall (fun p => exists t, tracking_number p = Some t) ps ->
  map Some (tracking_numbers ps) = map tracking_number ps.
Proof.
  induction 1 as [|p ps [t T] _ IH]; [reflexivity|].
  unfold tracking_numbers in *. simpl. rewrite T. simpl. now rewrite IH.
Qed.

(** The run, as the loop from the loaded ledgers over the filtered list. *)
Lemma main_ledger (w : World) (argv1 : option Z) (st st' : Run) :
  main w argv1 st = Ok st' ->
  exists fetched ps es,
    get_messages w (get_message_count argv1) = Ok (Some fetched) /\
    lines_of (data_file st') = lines_of (data_file st) ++ map Enc ps /\
    lines_of (error_file st') = lines_of (error_file st) ++ map Enc es /\
    newtrackingids st' = tracking_numbers ps /\
    Forall (filed_from w (load_data st) fetched) ps /\
    Forall (failed_from w (load_errors st) fetched) es.
Proof.
  intros M. apply main_Ok in M. destruct M as (fetched & G & ->).
  destruct (loop_ledger w (load_data st) (load_errors st)
              (filtered_errors_handled (load_errors st)
                 (new_messages (map (fun x => Id (email x)) (load_data st)) fetched))
              (mkRun (data_file st) (error_file st) []))
    as (ps & es & D & E & T & P & Q).
  exists fetched, ps, es. cbn zeta in D, E, T. simpl in D, E, T.
  refine (conj G (conj D (conj E (conj T (conj _ _))))).
  - eapply Forall_impl; [|exact P].
    intros p (x & m & I & H). exists x, m. split; [|exact H].
    rewrite filtered_errors_handled_keeps_all in I.
    now apply new_messages_not_processed in I.
  - eapply Forall_impl; [|exact Q].
    intros e (x & m & err & I & H). exists x, m, err. split; [|exact H].
    rewrite filtered_errors_handled_keeps_all in I.
    now apply new_messages_not_processed in I.
Qed.

(** X10: a completed run only appends to the two ledger files, and the
    tracking numbers it reports are those of the purchases it appended, in
    order. *)
Theorem main_append_only_and_report (w : World) (argv1 : option Z)
        (st st' : Run) :
  main w argv1 st = Ok st' ->
  exists ps es,
    lines_of (data_file st') = lines_of (data_file st) ++ map Enc ps /\
    lines_of (error_file st') = lines_of (error_file st) ++ map Enc es /\
    map Some (newtrackingids st') = map tracking_number ps.
Proof.
  intros M. destruct (main_ledger _ _ _ M) as (f & ps & es & _ & D & E & T & P & _).
  exists ps, es. refine (conj D (conj E _)). rewrite T.
  apply tracking_numbers_Some. eapply Forall_impl; [|exact P].
  intros p (x & m & _ & _ & X & _). now apply extract_tracking in X.
Qed.

(** X11: a message whose content the mailbox fails to return gets no entry:
    any line with its id in either ledger after the run was there before
    the run. *)
Theorem transport_failure_leaves_no_entry (w : World) (argv1 : option Z)
        (st st' : Run) (i : string) (err : exn) :
  main w argv1 st = Ok st' ->
  GetMimeMessage w i = Raise err ->
  (forall p, In (Enc p) (lines_of (data_file st')) -> Id (email p) = i ->
             In (Enc p) (lines_of (data_file st))) /\
  (forall e, In (Enc e) (lines_of (error_file st')) -> Id e = i ->
             In (Enc e) (lines_of (error_file st))).
Proof.
  intros M F.
  destruct (main_ledger _ _ _ M) as (f & ps & es & _ & D & E & _ & P & Q).
  rewrite Forall_forall in P, Q. split.
  - intros p I K. rewrite D in I. apply in_app_or in I.
    destruct I as [I|I]; [exact I|]. exfalso.
    apply in_map_iff in I. destruct I as (q & Eq & I). inversion Eq; subst q.
    destruct (P _ I) as (x & m & _ & G & X & _).
    apply extract_email in X. rewrite X in K. simpl in K. subst i.
    rewrite G in F. discriminate.
  - intros e I K. rewrite E in I. apply in_app_or in I.
    destruct I as [I|I]; [exact I|]. exfalso.
    apply in_map_iff in I. destruct I as (q & Eq & I). inversion Eq; subst q.
    destruct (Q _ I) as (x & m & er & _ & G & -> & _).
    simpl in K. subst i. rewrite G in F. discriminate.
Qed.


(** ** The pattern engine: what a sub-pattern consumed *)

Lemma star_greedy_split {A : Type} (p : Re.charset) (s : string)
      (k : string -> option A) (a : A) :
  Re.star_greedy p s k = Some a ->
  exists x t, s = (x ++ t)%string /\ Str.all p x = true /\ k t = Some a.
Proof.
  induction s as [|c s IH]; simpl.
  - intros H. now exists "", "".
  - destruct (p c) eqn:Pc; [|intros H; now exists "", (String c s)].
    destruct (Re.star_greedy p s k) as [b|] eqn:S.
    + intros H. inversion H; subst.
      destruct (IH eq_refl) as (x & t & -> & X & K).
      exists (String c x), t. simpl. now rewrite Pc, X.
    + intros H. now exists "", (String c s).
Qed.

Lemma rep_split (n : nat) (p : Re.charset) (s s' : string) :
  Re.rep n p s = Some s' ->
  exists x, s = (x ++ s')%string /\ String.length x = n /\ Str.all p x = true.
Proof.
  revert s. induction n as [|n IH]; intros s; simpl.
  - intros H. inversion H. now exists "".
  - destruct s as [|c s]; [discriminate|].
    destruct (p c) eqn:Pc; [|discriminate].
    intros H. destruct (IH _ H) as (x & -> & L & X).
    exists (String c x). simpl. now rewrite Pc, X, L.
Qed.

(** A match of the first pattern of [parse_address] has set groups 1, 2
    and 3. *)
Lemma search_line1_2_groups (s : string) (g : Re.groups) :
  Re.search re_line1_2 s = Some g ->
  exists l2 k3 l1, g = [(2, l2); (3, k3); (1, l1)].
Proof.
  intros H. apply search_Some in H. destruct H as [t H].
  unfold Re.rmatch, re_line1_2, re_unit_part, re_unit_keyword in H.
  cbn [Re.exec] in H.
  apply star_greedy_Some in H. destruct H as [t1 H].
  destruct (Str.strip_prefix " " t1) as [t2|]; [|discriminate].
  repeat match type of H with
         | match match Str.strip_prefix ?kw t2 with _ => _ end with _ => _ end = _ =>
             let E := fresh "E" in
             destruct (Str.strip_prefix kw t2) as [?u|] eqn:E;
             [match type of H with
              | match Re.star_greedy ?p ?u ?k with _ => _ end = _ =>
                  let S := fresh "S" in
                  destruct (Re.star_greedy p u k) as [?r|] eqn:S;
                  [apply star_greedy_Some in S; destruct S as [? S];
                   inversion S; subst; inversion H; subst; eauto|]
              end|]
         end.
  all: destruct (Str.strip_prefix "BLDG" t2) as [?u|]; [|discriminate].
  all: apply star_greedy_Some in H; destruct H as [? H]; inversion H; eauto.
Qed.

(** A match of the second pattern of [parse_address]: the shape of its
    three groups. *)
Lemma search_citystatezip_shape (csz : string) (g : Re.groups) :
  Re.search re_citystatezip csz = Some g ->
  exists c st z,
    g = [(3, z); (2, st); (1, c)] /\
    Str.all (Re.any_but [","%char]) c = true /\
    String.length st = 2 /\ Str.all Str.upper_letter st = true /\
    String.length z = 5 /\ Str.all Str.digit z = true.
Proof.
  intros H. apply search_Some in H. destruct H as [t H].
  unfold Re.rmatch, re_citystatezip in H. cbn [Re.exec] in H.
  apply star_greedy_split in H. destruct H as (c & t1 & -> & C & H).
  destruct (Str.strip_prefix ", " t1) as [t2|]; [|discriminate].
  destruct (Re.rep 2 Str.upper_letter t2) as [t3|] eqn:R2; [|discriminate].
  apply star_lazy_Some in H. destruct H as [t4 H].
  destruct (Re.rep 5 Str.digit t4) as [t5|] eqn:R5; [|discriminate].
  apply rep_split in R2. destruct R2 as (st & -> & L2 & U2).
  apply rep_split in R5. destruct R5 as (z & -> & L5 & D5).
  inversion H. rewrite !consumed_app.
  exists c, st, z. repeat split; auto.
Qed.

(** X14: whatever the two fragments, [parse_address] returns an address or
    raises [AttributeError], never another exception. *)
Theorem parse_address_raises_only_AttributeError (line1_2 csz : string)
        (e : exn) :
  parse_address line1_2 csz = Raise e -> e = AttributeError.
Proof.
  unfold parse_address.
  destruct (Re.search re_line1_2 line1_2) as [g|] eqn:S1.
  - destruct (search_line1_2_groups _ S1) as (l2 & k3 & l1 & ->).
    cbn [Re.group_of Re.group Nat.eqb bind].
    destruct (Re.search re_citystatezip csz) as [g|] eqn:S2.
    + destruct (search_citystatezip_shape _ S2) as (c & st & z & -> & _).
      cbn. discriminate.
    + cbn. intros H. now inversion H.
  - cbn. intros H. now inversion H.
Qed.

(** X15: in every address [parse_address] returns, the city has no comma,
    the state is two capital letters, the zipcode is five digits and the
    recipient is unset. *)
Theorem parse_address_shape (line1_2 csz : string) (a : Address) :
  parse_address line1_2 csz = Ok a ->
  Str.all (Re.any_but [","%char]) (city a) = true /\
  String.length (state a) = 2 /\ Str.all Str.upper_letter (state a) = true /\
  String.length (zipcode a) = 5 /\ Str.all Str.digit (zipcode a) = true /\
  recipient a = None.
Proof.
  unfold parse_address.
  destruct (Re.search re_line1_2 line1_2) as [g|] eqn:S1; [|discriminate].
  destruct (search_line1_2_groups _ S1) as (l2 & k3 & l1 & ->).
  cbn [Re.group_of Re.group Nat.eqb bind].
  destruct (Re.search re_citystatezip csz) as [g|] eqn:S2; [|discriminate].
  destruct (search_citystatezip_shape _ S2)
    as (c & st & z & -> & C & L2 & U2 & L5 & D5).
  cbn. intros H. inversion H; subst. simpl. auto 10.
Qed.

(** X16: on one line in which no space is followed by text beginning with
    a unit keyword, [parse_address] raises [AttributeError]. *)
Theorem parse_address_no_unit_keyword (s csz : string) :
  single_line s = true ->
  (forall l r, s = (l ++ " " ++ r)%string -> starts_with_unit_keyword r = false) ->
  parse_address s csz = Raise AttributeError.
Proof.
  intros L N. pose proof (search_line1_2 s L) as M.
  destruct (rsplit_unit s) as [[l r]|] eqn:R.
  - destruct (@rsplit_unit_sound _ _ _ R) as [E K].
    rewrite (N _ _ E) in K. discriminate.
  - unfold parse_address. now rewrite M.
Qed.


(** ** Runs *)

Lemma all_run (p : ascii -> bool) (s : string) : Str.all p (run p s) = true.
Proof.
  induction s as [|c s IH]; simpl; [reflexivity|].
  destruct (p c) eqn:Pc; simpl; [now rewrite Pc | reflexivity].
Qed.

Lemma after_run_head (p : ascii -> bool) (s : string) (c : ascii) (t : string) :
  after_run p s = String c t -> p c = false.
Proof.
  induction s as [|d s IH]; simpl; [discriminate|].
  destruct (p d) eqn:Pd; [exact IH|]. intros H. inversion H; subst. exact Pd.
Qed.

Lemma after_run_empty (p : ascii -> bool) (s : string) :
  after_run p s = "" -> Str.all p s = true.
Proof.
  induction s as [|d s IH]; simpl; [reflexivity|].
  destruct (p d); [exact IH | discriminate].
Qed.

Lemma consumed_after_run (p : ascii -> bool) (s : string) :
  Re.consumed s (after_run p s) = run p s.
Proof.
  rewrite (run_after_run p s) at 1. apply consumed_app.
Qed.

Lemma dot_false (c : ascii) : Re.dot c = false -> c = Str.LF.
Proof.
  unfold Re.dot, Re.any_but. simpl.
  destruct (Ascii.eqb_spec c Str.LF); [auto | discriminate].
Qed.

(** ** Labels *)

Lemma search_no_label (label : string) (R : Re.regex) (s : string) :
  partition label s = None ->
  Re.search (Re.Cat (Re.Lit label) R) s = None.
Proof.
  induction s as [|c s IH]; cbn [partition Re.search]; unfold Re.rmatch;
    cbn [Re.exec].
  - destruct (Str.strip_prefix label ""); [discriminate | reflexivity].
  - destruct (Str.strip_prefix label (String c s)); [discriminate|].
    destruct (partition label s) as [[b a]|]; [discriminate|].
    intros _. now apply IH.
Qed.

(** When the pattern fails at the first occurrence of its label and at
    every later position, it fails on the whole text. *)
Lemma search_fails_from_label (label : string) (R : Re.regex)
      (s pre rest : string) :
  partition label s = Some (pre, rest) ->
  Re.search (Re.Cat (Re.Lit label) R) (label ++ rest) = None ->
  Re.search (Re.Cat (Re.Lit label) R) s = None.
Proof.
  revert pre. induction s as [|c s IH]; intros pre P F.
  - cbn [partition] in P.
    destruct (Str.strip_prefix label "") as [t|] eqn:S; [|discriminate].
    inversion P; subst. apply strip_prefix_app in S. now rewrite S.
  - cbn [partition] in P.
    destruct (Str.strip_prefix label (String c s)) as [t|] eqn:S.
    + inversion P; subst. apply strip_prefix_app in S. now rewrite S.
    + destruct (partition label s) as [[b a]|] eqn:Q; [|discriminate].
      inversion P; subst. cbn [Re.search]. unfold Re.rmatch at 1.
      cbn [Re.exec]. rewrite S. now apply (IH b).
Qed.

(** ** The UPS tracking number *)

Lemma exec_tracking_group (rest : string) :
  Re.exec (Re.Group 1 (Re.Star (Re.any_but [Str.LF; Str.CR]))) rest []
          (fun _ g => Some g)
  = Some [(1, run (Re.any_but [Str.LF; Str.CR]) rest)].
Proof.
  cbn [Re.exec].
  refine (eq_trans
            (star_greedy_total (Re.any_but [Str.LF; Str.CR]) rest
               (fun s' => [(1, Re.consumed rest s')] : Re.groups)) _).
  now rewrite consumed_after_run.
Qed.

(** X17: on a message whose plain-text body is [body], the UPS tracking
    number is what follows the first occurrence of the label in [body] up
    to the next line feed or carriage return; without the label the
    extractor raises [AttributeError]. *)
Theorem ups_tracking_id (w : World) (message : Message) (body : string) :
  get_email_body_as_plaintext message = Ok body ->
  DeliveryServiceParser.parse_tracking_id w (Some DeliveryService.UPS) message
  = match partition "Tracking Number:=C2=A0" body with
    | Some (_, rest) => Ok (Some (run (Re.any_but [Str.LF; Str.CR]) rest))
    | None => Raise AttributeError
    end.
Proof.
  intros B. unfold DeliveryServiceParser.parse_tracking_id.
  cbn [DeliveryServiceParser.is_service DeliveryService.eqb].
  rewrite B. cbn [bind]. unfold DeliveryServiceParser.re_tracking_number.
  destruct (partition "Tracking Number:=C2=A0" body) as [[pre rest]|] eqn:P.
  - now rewrite (@search_after_label _ _ _ _ _ _ P (exec_tracking_group rest)).
  - now rewrite (@search_no_label _ _ _ P).
Qed.

(** ** The UPS address block *)

(** Without a line feed in the text the second part of the pattern never
    matches. *)
Lemma star_greedy_needs_LF {A : Type} (t : string)
      (K : string -> option A) :
  Str.all Re.dot t = true ->
  Re.star_greedy (Re.any_but [Str.LF]) t
    (fun s1 => match Str.strip_prefix (String Str.LF "") s1 with
               | Some s2 => K s2
               | None => None
               end) = None.
Proof.
  induction t as [|c t IH]; [reflexivity|].
  simpl Str.all. intros H. apply andb_true_iff in H. destruct H as [Hc Ht].
  cbn [Re.star_greedy]. change (Re.any_but [Str.LF]) with Re.dot.
  rewrite Hc.
  change (Re.dot) with (Re.any_but [Str.LF]) at 1. rewrite (IH Ht).
  cbn [Str.strip_prefix].
  destruct (Ascii.eqb_spec Str.LF c) as [<-|N]; [discriminate | reflexivity].
Qed.

Lemma search_delivery_location_needs_LF (s : string) :
  Str.all Re.dot s = true ->
  Re.search DeliveryServiceParser.re_delivery_location s = None.
Proof.
  unfold DeliveryServiceParser.re_delivery_location.
  induction s as [|c s IH]; intros H.
  - reflexivity.
  - cbn [Re.search]. unfold Re.rmatch at 1. cbn [Re.exec].
    destruct (Str.strip_prefix "Delivery Location:=C2=A0" (String c s))
      as [t|] eqn:S.
    + rewrite star_greedy_needs_LF by exact (all_strip_prefix _ _ _ S H).
      apply IH. simpl in H. now apply andb_true_iff in H.
    + apply IH. simpl in H. now apply andb_true_iff in H.
Qed.

Lemma exec_location_group (rest tail : string) (c : ascii) :
  after_run Re.dot rest = String c tail ->
  Re.exec (Re.Group 1 (Re.Cat (Re.Star (Re.any_but [Str.LF]))
                      (Re.Cat (Re.Lit (String Str.LF ""))
                              (Re.Star (Re.any_but [Str.LF])))))
          rest [] (fun _ g => Some g)
  = Some [(1, (run Re.dot rest ++ String Str.LF (run Re.dot tail))%string)].
Proof.
  intros H. pose proof (dot_false _ (after_run_head _ _ H)) as ->.
  cbn [Re.exec]. change (Re.any_but [Str.LF]) with Re.dot.
  rewrite (run_after_run Re.dot rest) at 1. rewrite H.
  apply star_greedy_run with (a := run Re.dot rest); [apply all_run|].
  rewrite star_greedy_stop by reflexivity.
  cbn [Str.strip_prefix]. rewrite Ascii.eqb_refl.
  refine (eq_trans
            (star_greedy_total Re.dot tail
               (fun s3 => [(1, Re.consumed rest s3)] : Re.groups)) _).
  do 3 f_equal.
  rewrite (run_after_run Re.dot rest) at 1. rewrite H.
  rewrite (run_after_run Re.dot tail) at 1.
  set (a := run Re.dot rest). set (b := run Re.dot tail).
  set (t := after_run Re.dot tail).
  assert (E : (a ++ String Str.LF (b ++ t))%string
              = ((a ++ String Str.LF b) ++ t)%string).
  { now rewrite app_assoc_str. }
  rewrite E. apply consumed_app.
Qed.

Lemma search_delivery_location (body : string) :
  Re.search DeliveryServiceParser.re_delivery_location body
  = match ups_address_block body with
    | Some block => Some [(1, block)]
    | None => None
    end.
Proof.
  unfold ups_address_block.
  destruct (partition "Delivery Location:=C2=A0" body) as [[pre rest]|] eqn:P.
  - destruct (after_run Re.dot rest) as [|c tail] eqn:T.
    + unfold DeliveryServiceParser.re_delivery_location.
      apply (@search_fails_from_label _ _ _ _ _ P).
      apply search_delivery_location_needs_LF.
      rewrite all_app. now rewrite (after_run_empty _ _ T).
    + unfold DeliveryServiceParser.re_delivery_location.
      exact (@search_after_label _ _ _ _ _ _ P (exec_location_group _ T)).
  - unfold DeliveryServiceParser.re_delivery_location.
    exact (@search_no_label _ _ _ P).
Qed.

(** X18: on a message whose plain-text body is [body], the UPS address is
    parsed from the rest of the line of the first occurrence of the label
    in [body] and the line after it; without the label or without a line
    feed after it the extractor raises [AttributeError]. *)
Theorem ups_address (w : World) (message : Message) (body : string) :
  get_email_body_as_plaintext message = Ok body ->
  DeliveryServiceParser.parse_address w (Some DeliveryService.UPS) message
  = match ups_address_block body with
    | None => Raise AttributeError
    | Some block =>
        l0 <- nth_or_IndexError (Str.splitlines block) 0 ;;
        l1 <- nth_or_IndexError (Str.splitlines block) 1 ;;
        a <- parse_address l0 l1 ;;
        Ok (Some a)
    end.
Proof.
  intros B. unfold DeliveryServiceParser.parse_address.
  cbn [DeliveryServiceParser.is_service DeliveryService.eqb].
  rewrite B. cbn [bind]. rewrite search_delivery_location.
  now destruct (ups_address_block body).
Qed.

(** ** The Amazon extractors *)

Lemma all_filter (p : ascii -> bool) (s : string) :
  Str.all p (Str.filter p s) = true.
Proof.
  induction s as [|c s IH]; simpl; [reflexivity|].
  destruct (p c) eqn:Pc; simpl; [now rewrite Pc | exact IH].
Qed.

Lemma nth_or_IndexError_Ok {A : Type} (l : list A) (n : nat) (a : A) :
  nth_or_IndexError l n = Ok a -> nth_error l n = Some a.
Proof.
  unfold nth_or_IndexError. destruct (nth_error l n); [|discriminate].
  intros H. now inversion H.
Qed.

Lemma next_where_Ok {A : Type} (p : A -> bool) (l : list A) (a : A) :
  next_where p l = Ok a -> In a l /\ p a = true.
Proof.
  unfold next_where. destruct (find p l) as [b|] eqn:F; [|discriminate].
  intros H. inversion H; subst. now apply find_some in F.
Qed.

(** X19: an address the Amazon extractor returns comes from the second and
    third strings of the marked block of the second body part, the third
    cleaned of punctuation, and its recipient is the first string reduced
    to word characters and spaces. *)
Theorem amazon_address (w : World) (message : Message) (a : Address) :
  DeliveryServiceParser.parse_address w (Some DeliveryService.Amazon) message
  = Ok (Some a) ->
  exists html lines l0 l1 l2 a0,
    nth_error (parts message) 1 = Some html /\
    soup_critical_info w html = Some lines /\
    nth_error lines 0 = Some l0 /\
    nth_error lines 1 = Some l1 /\
    nth_error lines 2 = Some l2 /\
    parse_address l1 (DeliveryServiceParser.keep_word_space_comma l2) = Ok a0 /\
    a = mkAddress (line1 a0) (line2 a0) (city a0) (state a0) (zipcode a0)
                  (Some (DeliveryServiceParser.keep_word_space l0)) /\
    Str.all (fun c => Str.word c || Ascii.eqb c " ")
            (DeliveryServiceParser.keep_word_space l0) = true.
Proof.
  unfold DeliveryServiceParser.parse_address.
  cbn [DeliveryServiceParser.is_service DeliveryService.eqb].
  destruct (get_email_body_as_html message) as [html|] eqn:B; [|discriminate].
  cbn [bind].
  destruct (soup_critical_info w html) as [lines|] eqn:C; [|discriminate].
  destruct (nth_or_IndexError lines 1) as [l1|] eqn:N1; [|discriminate].
  cbn [bind].
  destruct (nth_or_IndexError lines 2) as [l2|] eqn:N2; [|discriminate].
  cbn [bind].
  destruct (parse_address l1 _) as [a0|] eqn:P; [|discriminate].
  cbn [bind].
  destruct (nth_or_IndexError lines 0) as [l0|] eqn:N0; [|discriminate].
  cbn [bind]. intros H. inversion H; subst.
  exists html, lines, l0, l1, l2, a0.
  unfold get_email_body_as_html in B.
  repeat split; auto using nth_or_IndexError_Ok.
  apply all_filter.
Qed.

(** X20: a tracking ID the Amazon extractor returns is the text of an anchor
    containing the label, without its first 13 characters, on the page
    fetched from a URL of the plain-text part that contains both "ship"
    and "track". *)
Theorem amazon_tracking_id (w : World) (message : Message) (t : string) :
  DeliveryServiceParser.parse_tracking_id w (Some DeliveryService.Amazon) message
  = Ok (Some t) ->
  exists body url html text,
    nth_error (parts message) 0 = Some body /\
    In url (find_urls w body) /\
    Str.contains "ship" url = true /\ Str.contains "track" url = true /\
    http_get w url = Ok html /\
    In text (soup_anchor_texts w html) /\
    Str.contains "Tracking ID" text = true /\
    t = Str.drop 13 text.
Proof.
  unfold DeliveryServiceParser.parse_tracking_id.
  cbn [DeliveryServiceParser.is_service DeliveryService.eqb].
  destruct (get_email_body_as_plaintext message) as [body|] eqn:B;
    [|discriminate].
  cbn [bind].
  destruct (find_amazon_tracking_urls_in_plaintext_body w body) as [url|] eqn:U;
    [|discriminate].
  cbn [bind]. unfold load_url.
  destruct (http_get w url) as [html|] eqn:G; [|discriminate].
  cbn [bind].
  unfold find_amazon_tracking_ID_in_tracking_url_html,
    tracking_ID_of_anchor_texts.
  destruct (next_where _ (soup_anchor_texts w html)) as [text|] eqn:N;
    [|discriminate].
  cbn [bind]. intros H. inversion H; subst.
  apply next_where_Ok in U. destruct U as [Iu Cu].
  apply andb_true_iff in Cu. destruct Cu as [Cs Ct].
  apply next_where_Ok in N. destruct N as [It Ci].
  exists body, url, html, text.
  unfold get_email_body_as_plaintext in B.
  repeat split; auto using nth_or_IndexError_Ok.
Qed.

(** * The further properties on concrete inputs *)

(** X5 on two addresses in Quigley Boulevard that differ in case and in
    every other field. *)
Lemma from_address_case_insensitive_witness :
  BuyClub.from_address (Some Cases.quigley_mixed_case)
  = BuyClub.from_address (Some Cases.quigley_capitals).
Proof.
  exact (@from_address_case_insensitive
           Cases.quigley_mixed_case Cases.quigley_capitals eq_refl).
Defined.

(** X7 on two spellings of a UPS sender. *)
Lemma parse_ds_case_insensitive_witness :
  DeliveryServiceParser.parse_ds Cases.from_ups_capitals
  = DeliveryServiceParser.parse_ds Cases.from_ups_small.
Proof.
  exact (@parse_ds_case_insensitive
           Cases.from_ups_capitals Cases.from_ups_small
           "UPS <PKGINFO@UPS.COM>" "ups <pkginfo@ups.com>"
           eq_refl eq_refl eq_refl).
Defined.

(** X8 on the mailbox of three pages of two, asked for at most three: the
    second page is appended whole, the third is not requested. *)
Lemma get_messages_overshoot_witness :
  get_messages Cases.three_pages 3
  = Ok (Some [Examples.m1; Examples.m2; Examples.m3; Examples.m4]) /\
  ((Cases.three_pages_token = NoToken \/
    (3 <= Z.of_nat (List.length Cases.three_pages_first))%Z ->
    get_messages Cases.three_pages 3 = Ok (Some Cases.three_pages_first)) /\
   (forall l,
       get_messages Cases.three_pages 3 = Ok (Some l) ->
       exists k,
         (k <= List.length (later_pages Cases.three_pages_token))%nat /\
         l = Cases.three_pages_first
             ++ concat (firstn k (later_pages Cases.three_pages_token)) /\
         (k = 0%nat \/
          (Z.of_nat (List.length
                       (Cases.three_pages_first
                        ++ concat (firstn (k - 1)
                                          (later_pages Cases.three_pages_token))))
           < 3)%Z) /\
         ((3 <= Z.of_nat (List.length l))%Z \/
          k = List.length (later_pages Cases.three_pages_token))) /\
   (forall l m,
       get_messages Cases.three_pages 3 = Ok (Some l) ->
       (forall page, In page (later_pages Cases.three_pages_token) ->
                     (List.length page <= m)%nat) ->
       l = Cases.three_pages_first \/
       (Z.of_nat (List.length l) < 3 + Z.of_nat m)%Z)).
Proof.
  split; [reflexivity|].
  exact (@get_messages_overshoot Cases.three_pages 3
           Cases.three_pages_first Cases.three_pages_token eq_refl).
Defined.

(** X9 on the empty mailbox. *)
Lemma main_empty_mailbox_witness :
  main Cases.empty_mailbox None Examples.fresh = Raise TypeError.
Proof.
  exact (@main_empty_mailbox Cases.empty_mailbox None Examples.fresh NoToken
           eq_refl).
Defined.

(** X10 on the first run over the example mailbox. *)
Lemma main_append_only_and_report_witness :
  exists ps es,
    lines_of (data_file Examples.after_first_run)
    = lines_of (data_file Examples.fresh) ++ map Enc ps /\
    lines_of (error_file Examples.after_first_run)
    = lines_of (error_file Examples.fresh) ++ map Enc es /\
    map Some (newtrackingids Examples.after_first_run)
    = map tracking_number ps.
Proof.
  exact (@main_append_only_and_report Examples.mailbox None
           Examples.fresh Examples.after_first_run eq_refl).
Defined.

(** X11 on the mailbox that lists [m1] and [m3], where the fetch of [m3]
    fails: after the run from empty ledgers neither file has a line for
    [m3]. *)
Lemma transport_failure_leaves_no_entry_witness :
  gmail_list Cases.unfetchable (get_message_count None)
  = Response (Some [Examples.m1; Examples.m3]) NoToken /\
  main Cases.unfetchable None Examples.fresh = Ok Cases.after_unfetchable /\
  GetMimeMessage Cases.unfetchable "m3" = Raise HttpError /\
  (forall p, In (Enc p) (lines_of (data_file Cases.after_unfetchable)) ->
             Id (email p) = "m3" ->
             In (Enc p) (lines_of (data_file Examples.fresh))) /\
  (forall e, In (Enc e) (lines_of (error_file Cases.after_unfetchable)) ->
             Id e = "m3" ->
             In (Enc e) (lines_of (error_file Examples.fresh))).
Proof.
  refine (conj eq_refl (conj eq_refl (conj eq_refl _))).
  exact (@transport_failure_leaves_no_entry Cases.unfetchable None
           Examples.fresh Cases.after_unfetchable "m3" HttpError
           eq_refl eq_refl).
Defined.


(** X13 on the UPS notice. *)
Lemma extract_Ok_witness :
  (DeliveryServiceParser.parse_ds Examples.ups_message
   = Ok (Some DeliveryService.UPS) \/
   DeliveryServiceParser.parse_ds Examples.ups_message
   = Ok (Some DeliveryService.Amazon)) /\
  email Cases.ups_purchase = envelope Examples.m1 Examples.ups_message /\
  exists t a,
    tracking_number Cases.ups_purchase = Some t /\
    address Cases.ups_purchase = Some a /\
    DeliveryService.from_number (Some t)
    = Ok (shipping_service Cases.ups_purchase) /\
    BuyClub.from_address (Some a) = Ok (buying_club Cases.ups_purchase).
Proof.
  exact (@extract_Ok Examples.mailbox
           (envelope Examples.m1 Examples.ups_message)
           Examples.ups_message Cases.ups_purchase eq_refl).
Defined.

(** X14 on a city line without a state. *)
Lemma parse_address_raises_only_AttributeError_witness :
  AttributeError = AttributeError.
Proof.
  exact (@parse_address_raises_only_AttributeError
           "123 Main St APT 4" "Springfield" AttributeError eq_refl).
Defined.

(** X15 on the address of the UPS scenario. *)
Lemma parse_address_shape_witness :
  Str.all (Re.any_but [","%char]) (city Examples.home) = true /\
  String.length (state Examples.home) = 2 /\
  Str.all Str.upper_letter (state Examples.home) = true /\
  String.length (zipcode Examples.home) = 5 /\
  Str.all Str.digit (zipcode Examples.home) = true /\
  recipient Examples.home = None.
Proof.
  exact (@parse_address_shape "123 Main St APT 4" "Springfield, IL 62704"
           Examples.home eq_refl).
Defined.

(** X16 on a street line without a unit. *)
Lemma parse_address_no_unit_keyword_witness :
  parse_address "100 Main St" "Springfield, IL 62704" = Raise AttributeError.
Proof.
  refine (@parse_address_no_unit_keyword "100 Main St"
            "Springfield, IL 62704" eq_refl _).
  intros l r E. destruct (starts_with_unit_keyword r) eqn:K; [|reflexivity].
  exfalso. apply (@rsplit_unit_complete l r K). rewrite <- E. reflexivity.
Defined.

(** X17 on the UPS notice, and on the FedEx notice, whose body has no
    label. *)
Lemma ups_tracking_id_witness :
  DeliveryServiceParser.parse_tracking_id
    Examples.mailbox (Some DeliveryService.UPS) Examples.ups_message
  = Ok (Some "1Z123") /\
  DeliveryServiceParser.parse_tracking_id
    Examples.mailbox (Some DeliveryService.UPS) Examples.fedex_message
  = Raise AttributeError.
Proof.
  split.
  - exact (@ups_tracking_id Examples.mailbox Examples.ups_message
             Examples.ups_body eq_refl).
  - exact (@ups_tracking_id Examples.mailbox Examples.fedex_message
             "hello" eq_refl).
Defined.

(** X18 on the UPS notice, and on the UPS notice of one line, where no line
    feed follows the label. *)
Lemma ups_address_witness :
  DeliveryServiceParser.parse_address
    Examples.mailbox (Some DeliveryService.UPS) Examples.ups_message
  = Ok (Some Examples.home) /\
  DeliveryServiceParser.parse_address
    Examples.mailbox (Some DeliveryService.UPS) Cases.ups_one_line
  = Raise AttributeError.
Proof.
  split.
  - exact (@ups_address Examples.mailbox Examples.ups_message
             Examples.ups_body eq_refl).
  - exact (@ups_address Examples.mailbox Cases.ups_one_line
             "Delivery Location:=C2=A0123 Main St APT 4 Tracking Number:=C2=A01Z123"
             eq_refl).
Defined.

(** X19 on the Amazon notice. *)
Lemma amazon_address_witness :
  exists html lines l0 l1 l2 a0,
    nth_error (parts Cases.amazon_message) 1 = Some html /\
    soup_critical_info Cases.amazon_world html = Some lines /\
    nth_error lines 0 = Some l0 /\
    nth_error lines 1 = Some l1 /\
    nth_error lines 2 = Some l2 /\
    parse_address l1 (DeliveryServiceParser.keep_word_space_comma l2) = Ok a0 /\
    mkAddress "123 Main St" "APT 4" "Springfield" "IL" "62704" (Some "Ann OLee")
    = mkAddress (line1 a0) (line2 a0) (city a0) (state a0) (zipcode a0)
                (Some (DeliveryServiceParser.keep_word_space l0)) /\
    Str.all (fun c => Str.word c || Ascii.eqb c " ")
            (DeliveryServiceParser.keep_word_space l0) = true.
Proof.
  exact (@amazon_address Cases.amazon_world Cases.amazon_message
           (mkAddress "123 Main St" "APT 4" "Springfield" "IL" "62704"
                      (Some "Ann OLee"))
           eq_refl).
Defined.

(** X20 on the Amazon notice. *)
Lemma amazon_tracking_id_witness :
  exists body url html text,
    nth_error (parts Cases.amazon_message) 0 = Some body /\
    In url (find_urls Cases.amazon_world body) /\
    Str.contains "ship" url = true /\ Str.contains "track" url = true /\
    http_get Cases.amazon_world url = Ok html /\
    In text (soup_anchor_texts Cases.amazon_world html) /\
    Str.contains "Tracking ID" text = true /\
    "TBA123456789012" = Str.drop 13 text.
Proof.
  exact (@amazon_tracking_id Cases.amazon_world Cases.amazon_message
           "TBA123456789012" eq_refl).
Defined.
